(** * Bank_agent: the generate / validate / repair loop of [agent.py]

    A shallow embedding of [agent.py] and the properties of its
    validation oracle and of its bounded repair loop.

    Conventions of the embedding.
    - Python text is a [string] (the bytes of its UTF-8 encoding);
      [str.strip()] removes the white space of the ASCII range.
    - A pandas frame is a row index (integer labels) and an ordered list
      of named columns; column names are text.
    - What the interpreter, the generative model and the file system
      supply is taken as an oracle or as explicit state: the outcome of
      importing and running a candidate, the model's responses, the text
      of a traceback, the content of the parser file.
    - [print] and [time.sleep] have no effect on the results and are left
      out. *)

From Stdlib Require Import String Ascii List ListDec ZArith Lia Bool Permutation Arith.
Import ListNotations.
Open Scope string_scope.

(* ================================================================== *)
(** * Python text *)
(* ================================================================== *)

Module PyStr.

(** [c.isspace()] on the ASCII range: TAB, LF, VT, FF, CR, FS, GS, RS, US
    and the space. *)
Definition isspace (c : ascii) : bool :=
  let n := nat_of_ascii c in
  (Nat.leb 9 n && Nat.leb n 13) || (Nat.leb 28 n && Nat.leb n 32).

Fixpoint lstrip (s : string) : string :=
  match s with
  | EmptyString => EmptyString
  | String c s' => if isspace c then lstrip s' else s
  end.

Fixpoint rstrip (s : string) : string :=
  match s with
  | EmptyString => EmptyString
  | String c s' =>
      match rstrip s' with
      | EmptyString => if isspace c then EmptyString else String c EmptyString
      | r => String c r
      end
  end.

(** [s.strip()] *)
Definition strip (s : string) : string := rstrip (lstrip s).

(** [s.startswith(p)] *)
Fixpoint startswith (p s : string) : bool :=
  match p, s with
  | EmptyString, _ => true
  | String _ _, EmptyString => false
  | String a p', String b s' => Ascii.eqb a b && startswith p' s'
  end.

(** [sub in s] *)
Fixpoint contains (sub s : string) : bool :=
  startswith sub s ||
  match s with
  | EmptyString => false
  | String _ s' => contains sub s'
  end.

(** [s.split(sep)] for a non-empty separator: a left-to-right scan for
    non-overlapping occurrences.  [skip] counts the characters of the
    occurrence being consumed, [cur] is the piece being collected. *)
Fixpoint split_go (sep : string) (skip : nat) (cur s : string) : list string :=
  match s with
  | EmptyString => [cur]
  | String c s' =>
      match skip with
      | S k => split_go sep k cur s'
      | O =>
          if startswith sep s
          then cur :: split_go sep (String.length sep - 1) EmptyString s'
          else split_go sep 0 (cur ++ String c EmptyString) s'
      end
  end.

Definition split (sep s : string) : list string := split_go sep 0 EmptyString s.

(** [l[i]] on a list of pieces; the source only indexes pieces that exist
    (see [split_has_second]). *)
Definition item (i : nat) (l : list string) : string := nth i l EmptyString.

Definition newline : string := String (ascii_of_nat 10) EmptyString.

(** [s.replace(a, b)] for a one-character [a]. *)
Fixpoint replace_char (a : ascii) (b : string) (s : string) : string :=
  match s with
  | EmptyString => EmptyString
  | String c s' =>
      (if Ascii.eqb c a then b else String c EmptyString) ++ replace_char a b s'
  end.

End PyStr.

(* ================================================================== *)
(** * Exceptions *)
(* ================================================================== *)

(** A raised Python exception: the name of its class, whether the class
    derives from [Exception] (an [except Exception] clause catches only
    those; [SystemExit], [KeyboardInterrupt] and [GeneratorExit] derive
    from [BaseException] alone), and [str(e)]. *)
Record Exn := mkExn {
  exn_type : string;
  exn_is_Exception : bool;
  exn_msg : string
}.

Inductive Outcome (A : Type) : Type :=
| Return (a : A)
| Raise (e : Exn).

Arguments Return {A} a.
Arguments Raise {A} e.

Definition bind {A B : Type} (m : Outcome A) (k : A -> Outcome B) : Outcome B :=
  match m with
  | Return a => k a
  | Raise e => Raise e
  end.

Notation "x <- m ;; k" := (bind m (fun x => k))
  (at level 61, m at next level, right associativity).

(** [try: body  except Exception as e: handler(e)] *)
Definition try_except_Exception {A : Type}
    (body : Outcome A) (handler : Exn -> Outcome A) : Outcome A :=
  match body with
  | Return a => Return a
  | Raise e => if exn_is_Exception e then handler e else Raise e
  end.

(* ================================================================== *)
(** * The pandas data the agent handles *)
(* ================================================================== *)

Module Pandas.

(** A frame: the labels of its rows and its named columns, in order.
    [df.columns] is [columns df], [df.shape] is [shape df]. *)
Record DataFrame (A : Type) : Type := mkDF {
  index : list Z;
  data : list (string * list A)
}.

Arguments mkDF {A} index data.
Arguments index {A} d.
Arguments data {A} d.

Definition columns {A} (df : DataFrame A) : list string := map fst (data df).

Definition shape {A} (df : DataFrame A) : nat * nat :=
  (length (index df), length (data df)).

(** Every column has one value per row label. *)
Definition rectangular {A} (df : DataFrame A) : Prop :=
  Forall (fun c => length (snd c) = length (index df)) (data df).

(** Element-wise application, as [astype], [fillna] and
    [apply(lambda x: x.str...)] do: labels are kept. *)
Definition map_column {A B} (f : A -> B) (c : string * list A) : string * list B :=
  (fst c, map f (snd c)).

Definition applymap {A B} (f : A -> B) (df : DataFrame A) : DataFrame B :=
  mkDF (index df) (map (map_column f) (data df)).

(** ** Cells *)

(** A value a candidate may leave in a cell. *)
Inductive cell : Type :=
| CStr (s : string)     (* a str *)
| CNaN                  (* float nan *)
| CNone                 (* None *)
| CNA                   (* pandas.NA *)
| CObj (text : string). (* any other object; [text] is its [str()] *)

(** A cell of an object column of text: a str or a missing value. *)
Definition text_cell : Type := option string.

(** [df.astype(str)]: every value becomes its [str()], the missing ones
    included. *)
Definition astype_str (c : cell) : text_cell :=
  match c with
  | CStr s => Some s
  | CNaN => Some "nan"
  | CNone => Some "None"
  | CNA => Some "<NA>"
  | CObj t => Some t
  end.

Definition NULL_TEXTS : list string := ["nan"; "<NA>"; "None"].

Definition mem (s : string) (l : list string) : bool := existsb (String.eqb s) l.

(** [re.sub(r'^(nan|<NA>|None)$', '', s)].  Without re.MULTILINE [^]
    matches at the start only and [$] at the end or before a final
    newline, so the match is the whole text, or the whole text but its
    final newline, which then stays. *)
Definition sub_null (s : string) : string :=
  if mem s NULL_TEXTS then EmptyString
  else if mem s (map (fun t => t ++ PyStr.newline) NULL_TEXTS) then PyStr.newline
  else s.

(** [series.str.replace(r'^(nan|<NA>|None)$', '', regex=True)]: missing
    values stay missing. *)
Definition str_replace_null (c : text_cell) : text_cell := option_map sub_null c.

(** [fillna(v)] on a cell. *)
Definition fillna (v : string) (c : text_cell) : string :=
  match c with
  | Some s => s
  | None => v
  end.

(** ** Loading the expected table *)

(** The text of a CSV file once split in fields: the header names and,
    per column, the text of each record's field. *)
Record CsvTable : Type := mkCsv {
  csv_records : nat;
  csv_fields : list (string * list string)
}.

(** The texts [read_csv] reads as a missing value by default (pandas 2). *)
Definition STR_NA_VALUES : list string :=
  [EmptyString; "#N/A"; "#N/A N/A"; "#NA"; "-1.#IND"; "-1.#QNAN"; "-NaN"; "-nan";
   "1.#IND"; "1.#QNAN"; "<NA>"; "N/A"; "NA"; "NULL"; "NaN"; "None"; "n/a";
   "nan"; "null"].

Definition na_filter (field : string) : text_cell :=
  if mem field STR_NA_VALUES then None else Some field.

Definition RangeIndex (n : nat) : list Z := map Z.of_nat (seq 0 n).

(** [pd.read_csv(csv_path, dtype=str)] on a file it can read: every
    field stays text unless it is read as missing, and the rows are
    labelled 0, 1, ... *)
Definition read_csv (f : CsvTable) : DataFrame text_cell :=
  mkDF (RangeIndex (csv_records f)) (map (map_column na_filter) (csv_fields f)).

(** ** [DataFrame.__getitem__] and [__setitem__] with a column label *)

Definition count_label (col : string) (names : list string) : nat :=
  length (filter (String.eqb col) names).

(** [df[col].str]: [df[col]] is a Series when one column bears the
    label; when several do it is a DataFrame, which has no [.str]. *)
Definition AttributeError_str : Exn :=
  mkExn "AttributeError" true "'DataFrame' object has no attribute 'str'".

Definition KeyError (col : string) : Exn := mkExn "KeyError" true col.

Definition getitem_str {A} (df : DataFrame A) (col : string) : Outcome (list A) :=
  match filter (fun c => String.eqb col (fst c)) (data df) with
  | [] => Raise (KeyError col)
  | [c] => Return (snd c)
  | _ :: _ :: _ => Raise AttributeError_str
  end.

(** [df[col] = values] for a label the frame has: the value replaces the
    column(s) of that label. *)
Definition setitem {A} (df : DataFrame A) (col : string) (values : list A)
    : DataFrame A :=
  mkDF (index df)
       (map (fun c => if String.eqb col (fst c) then (fst c, values) else c)
            (data df)).

(** ** [pd.testing.assert_frame_equal(left, right, check_like=True)] *)

Inductive Difference : Type :=
| ShapeMismatch (left right : nat * nat)   (* "DataFrame shape mismatch" *)
| IndexDifferent                           (* "DataFrame.index are different" *)
| ColumnsDifferent                         (* "DataFrame.columns are different" *)
| ValuesDifferent (i : nat) (col : string).
    (* "DataFrame.iloc[:, i] (column name="col") are different" *)

Inductive Comparison : Type :=
| Equal
| Different (d : Difference)   (* AssertionError *)
| CannotReindex.               (* ValueError: cannot reindex on an axis
                                  with duplicate labels *)

Definition shape_eqb (a b : nat * nat) : bool :=
  Nat.eqb (fst a) (fst b) && Nat.eqb (snd a) (snd b).

Fixpoint count_Z (x : Z) (l : list Z) : nat :=
  match l with
  | [] => 0
  | y :: l' => (if Z.eqb x y then 1 else 0) + count_Z x l'
  end.

(** [assert_index_equal(l, r, check_order=False)] sorts both sides before
    comparing them: they must hold the same labels, each as many times. *)
Definition same_labels_Z (l r : list Z) : bool :=
  forallb (fun x => Nat.eqb (count_Z x l) (count_Z x r)) (l ++ r).

Definition same_labels (l r : list string) : bool :=
  forallb (fun x => Nat.eqb (count_label x l) (count_label x r)) (l ++ r).

Fixpoint list_eqb {A} (eqb : A -> A -> bool) (l r : list A) : bool :=
  match l, r with
  | [], [] => true
  | a :: l', b :: r' => eqb a b && list_eqb eqb l' r'
  | _, _ => false
  end.

Fixpoint nodupb {A} (eqb : A -> A -> bool) (l : list A) : bool :=
  match l with
  | [] => true
  | a :: l' => negb (existsb (eqb a) l') && nodupb eqb l'
  end.

Fixpoint position (x : Z) (l : list Z) : option nat :=
  match l with
  | [] => None
  | y :: l' => if Z.eqb x y then Some 0 else option_map S (position x l')
  end.

(** The rows of a column in the order of the labels [target]. *)
Definition take_rows {A} (source target : list Z) (values : list A) : list A :=
  flat_map (fun lbl =>
              match position lbl source with
              | Some i => match nth_error values i with
                          | Some v => [v]
                          | None => []
                          end
              | None => []
              end) target.

(** The columns in the order of the labels [target]. *)
Definition take_columns {A} (cols : list (string * list A)) (target : list string)
    : list (string * list A) :=
  flat_map (fun name =>
              match find (fun c => String.eqb name (fst c)) cols with
              | Some c => [c]
              | None => []
              end) target.

(** [left.reindex_like(right)], called once both axes are known to hold
    the same labels: an axis that is equal to the target is left alone,
    one that is not must have unique labels. *)
Definition reindex_like {A B} (left : DataFrame A) (right : DataFrame B)
    : option (DataFrame A) :=
  let rows_ok :=
    list_eqb Z.eqb (index left) (index right) || nodupb Z.eqb (index left) in
  let cols_ok :=
    list_eqb String.eqb (columns left) (columns right)
    || nodupb String.eqb (columns left) in
  if rows_ok && cols_ok then
    let cols :=
      if list_eqb String.eqb (columns left) (columns right) then data left
      else take_columns (data left) (columns right) in
    let cols :=
      if list_eqb Z.eqb (index left) (index right) then cols
      else map (fun c => (fst c, take_rows (index left) (index right) (snd c))) cols in
    Some (mkDF (index right) cols)
  else None.

(** The column-by-column pass: the first position whose two Series
    differ. *)
Fixpoint first_different (i : nat) (l r : list (string * list string))
    : option (nat * string) :=
  match l, r with
  | lc :: l', rc :: r' =>
      if list_eqb String.eqb (snd lc) (snd rc) then first_different (S i) l' r'
      else Some (i, fst lc)
  | _, _ => None
  end.

Definition assert_frame_equal (left right : DataFrame string) : Comparison :=
  if negb (shape_eqb (shape left) (shape right)) then
    Different (ShapeMismatch (shape left) (shape right))
  else if negb (same_labels_Z (index left) (index right)) then
    Different IndexDifferent
  else if negb (same_labels (columns left) (columns right)) then
    Different ColumnsDifferent
  else
    match reindex_like left right with
    | None => CannotReindex
    | Some left' =>
        match first_different 0 (data left') (data right) with
        | Some (i, col) => Different (ValuesDifferent i col)
        | None => Equal
        end
    end.

End Pandas.

(* ================================================================== *)
(** * The agent *)
(* ================================================================== *)

Module Agent.
Import Pandas.

Definition MAX_ATTEMPTS : nat := 3.

Definition SYSTEM_PROMPT : string := "
You are an expert AI coding agent. Your sole purpose is to write a standalone, production-quality Python parser for a given bank statement PDF.

**Your Goal:**
- Write a single Python file: `custom_parsers/{bank_name}_parser.py`.
- This file must contain one function: `parse(pdf_path: str) -> pandas.DataFrame`.
- The DataFrame returned by your `parse` function MUST EXACTLY MATCH the schema and data of the provided sample CSV.

**Parser Requirements:**
1.  **Process All Pages:** Your parser **must iterate through all pages** of the PDF to extract every single transaction. This is critical for correctness.
2.  **Robust Data Handling:** Your generated code must be resilient.
    - Always convert column headers to strings before processing them (e.g., `str(col).strip()`).
    - Meticulously clean data: strip whitespace, remove currency symbols, ensure consistent date formats.
3.  **Crucial Bank Statement Logic:** A single transaction row can have a value in the 'Debit' column OR the 'Credit' column, but **never both**. If a value exists for one, the other must be null or an empty string.
4.  **Dependency-Light:** Do not use libraries outside the standard library, `pandas`, `pdfplumber`, and `camelot-py`.
5.  **Error Handling:** If the PDF is unparsable, return an empty DataFrame with the correct column names from the CSV schema.
6.  **No Placeholders:** The code must be complete and functional. Your response should contain ONLY the Python code for the parser, without any surrounding text or markdown.
".

(** ** What the environment supplies *)

(** What a candidate's [parse] may hand back. *)
Inductive PyValue : Type :=
| PyNone
| PyDataFrame (df : DataFrame cell)
| PyOther (type_text : string).   (* [type_text] is [str(type(value))] *)

(** An imported candidate: what calling its [parse] on the sample PDF
    does, if it defines the name at all. *)
Record PyModule : Type := mkModule {
  parse : option (Outcome PyValue)
}.

(** The interpreter: importing a file of the given text, the text
    [traceback.format_exc()] gives for an exception being handled, and
    the message pandas words for a failed assertion. *)
Record Interpreter : Type := mkInterpreter {
  exec_module : string -> Outcome PyModule;
  format_exc : Exn -> string;
  assertion_text : Difference -> string
}.

(** The generative model: the text of its answer to a prompt, which may
    change from one call to the next. *)
Definition Model : Type := nat -> string -> string.

(** ** Normalisation *)

(** [pd.read_csv(csv_path, dtype=str)] then
    [fillna('').apply(lambda x: x.str.strip())]. *)
Definition load_expected (csv : CsvTable) : DataFrame string :=
  let expected_df := read_csv csv in
  applymap PyStr.strip (applymap (fillna EmptyString) expected_df).

(** [for col in result_df.columns:
       result_df[col] = result_df[col].str.replace(...)] *)
Fixpoint replace_nulls (cols : list string) (result_df : DataFrame text_cell)
    : Outcome (DataFrame text_cell) :=
  match cols with
  | [] => Return result_df
  | col :: rest =>
      series <- getitem_str result_df col ;;
      replace_nulls rest (setitem result_df col (map str_replace_null series))
  end.

(** Lines 107 to 113 of [run_parser_test]. *)
Definition normalize_result (result_df : DataFrame cell) : Outcome (DataFrame string) :=
  let result_df := applymap astype_str result_df in
  result_df <- replace_nulls (columns result_df) result_df ;;
  Return (applymap PyStr.strip (applymap (fillna EmptyString) result_df)).

(** What the two sides make of one cell. *)
Definition expected_cell (field : string) : string :=
  PyStr.strip (fillna EmptyString (na_filter field)).

Definition result_cell (c : cell) : string :=
  PyStr.strip (fillna EmptyString (str_replace_null (astype_str c))).

(** A frame of text seen as a frame a candidate returns. *)
Definition as_result (df : DataFrame string) : DataFrame cell := applymap CStr df.

(** ** [run_parser_test] *)

Definition TypeError_None : Exn :=
  mkExn "TypeError" true
        "The parse() function returned None, but a DataFrame was expected.".

Definition TypeError_type (type_text : string) : Exn :=
  mkExn "TypeError" true
        ("The parse() function returned a " ++ type_text
         ++ ", but a DataFrame was expected.").

Definition AttributeError_parse : Exn :=
  mkExn "AttributeError" true "module 'parser_module' has no attribute 'parse'".

Definition AssertionError (o : Interpreter) (d : Difference) : Exn :=
  mkExn "AssertionError" true (assertion_text o d).

Definition ValueError_reindex : Exn :=
  mkExn "ValueError" true "cannot reindex on an axis with duplicate labels".

(** [module.parse(pdf_path)] *)
Definition call_parse (module : PyModule) : Outcome PyValue :=
  match parse module with
  | None => Raise AttributeError_parse
  | Some outcome => outcome
  end.

Definition raise_unless_equal (o : Interpreter) (c : Comparison) : Outcome unit :=
  match c with
  | Equal => Return tt
  | Different d => Raise (AssertionError o d)
  | CannotReindex => Raise ValueError_reindex
  end.

(** The [except Exception as e] block. *)
Definition failure_feedback (o : Interpreter) (e : Exn) : string :=
  let error_type := exn_type e in
  let error_message :=
    PyStr.replace_char (ascii_of_nat 10) (PyStr.newline ++ "  ") (exn_msg e) in
  "
        The parser failed with a '"
  ++ error_type
  ++ "' error.
        **Error Details:**
        "
  ++ error_message
  ++ "
        **Traceback:**
        "
  ++ format_exc o e
  ++ "
        ".

Definition PASSED : string := "✅ Test passed! DataFrames are identical.".

(** The body of the [try]. *)
Definition test_body (o : Interpreter) (code : string) (csv : CsvTable)
    : Outcome (bool * string) :=
  module <- exec_module o code ;;
  let expected_df := load_expected csv in
  result_df <- call_parse module ;;
  result_df <- match result_df with
               | PyNone => Raise TypeError_None
               | PyOther type_text => Raise (TypeError_type type_text)
               | PyDataFrame df => Return df
               end ;;
  result_df <- normalize_result result_df ;;
  _ <- raise_unless_equal o (assert_frame_equal expected_df result_df) ;;
  Return (true, PASSED).

(** [parser_file] is the text of the file at [parser_path], if it exists. *)
Definition run_parser_test (o : Interpreter) (parser_file : option string)
    (csv : CsvTable) : Outcome (bool * string) :=
  match parser_file with
  | None => Return (false, "Parser file does not exist.")
  | Some code =>
      try_except_Exception (test_body o code csv)
        (fun e => Return (false, failure_feedback o e))
  end.

(** ** The code-generation steps *)

Definition FENCE : string := "```python".

(** The clean-up both steps apply to the model's answer. *)
Definition extract_code (code : string) : string :=
  if PyStr.contains FENCE code
  then PyStr.strip
         (PyStr.item 0 (PyStr.split "```" (PyStr.item 1 (PyStr.split FENCE code))))
  else code.

Definition generate_prompt (bank_name pdf_text csv_preview : string) : string :=
  "
    "
  ++ SYSTEM_PROMPT
  ++ "
    **Bank Name:** "
  ++ bank_name
  ++ "
    **Partial Text from PDF Statement:**
    ```"
  ++ (if String.eqb pdf_text EmptyString then "[No extractable text detected.]" else pdf_text)
  ++ "```
    **Target CSV Schema and Data Preview:**
    ```"
  ++ csv_preview
  ++ "```
    Now, write the complete, final Python code for the parser file `custom_parsers/"
  ++ bank_name
  ++ "_parser.py`.
    ".

Definition FIX_HEAD : string := "
    You are an AI code-fixing agent. The following Python parser failed its test.
    Read the error feedback and the original code, then provide a corrected version.

    **Failure Feedback:**
    ```
    ".

Definition FIX_HINT : string := "
    ```

    **Hint:** If the error is a `DataFrame shape mismatch`, it means your code did not extract all the rows from the PDF. Your logic MUST iterate through all pages of the document. If the error is about a `Debit` or `Credit` column, remember that a transaction can only be one or the other.

    **Original Code:**
    ```python
    ".

Definition FIX_TAIL : string := "
    ```

    Your task is to rewrite the entire Python script to fix the bug.
    Your response must contain ONLY the corrected Python code, enclosed in ```python ... ```.
    ".

Definition fix_prompt (feedback original_code : string) : string :=
  FIX_HEAD ++ feedback ++ FIX_HINT ++ original_code ++ FIX_TAIL.

(** What a run leaves behind: the validations, with the attempt they
    belong to and their verdict ([None] when an exception left
    [run_parser_test]), and the prompts sent to the model. *)
Inductive Event : Type :=
| Generated (prompt : string)
| Tested (attempt : nat) (success : option bool)
| Repaired (prompt : string).

(** The state the steps act on: the text of the parser file, the number
    of calls the model has answered, and the events so far. *)
Record World : Type := mkWorld {
  parser_file : option string;
  model_calls : nat;
  events : list Event
}.

Definition record (ev : Event) (w : World) : World :=
  mkWorld (parser_file w) (model_calls w) (events w ++ [ev]).

Definition write_text (code : string) (w : World) : World :=
  mkWorld (Some code) (model_calls w) (events w).

(** [model.generate_content(prompt).text] *)
Definition generate_content (model : Model) (prompt : string) (w : World)
    : string * World :=
  (model (model_calls w) prompt,
   mkWorld (parser_file w) (S (model_calls w)) (events w)).

Definition generate_parser (model : Model) (bank_name pdf_text csv_preview : string)
    (w : World) : World :=
  let prompt := generate_prompt bank_name pdf_text csv_preview in
  let (code, w) := generate_content model prompt (record (Generated prompt) w) in
  write_text (extract_code code) w.

Definition FileNotFoundError : Exn :=
  mkExn "FileNotFoundError" true "[Errno 2] No such file or directory".

Definition fix_parser (model : Model) (feedback : string) (w : World)
    : World * Outcome unit :=
  match parser_file w with
  | None => (w, Raise FileNotFoundError)
  | Some original_code =>
      let prompt := fix_prompt feedback original_code in
      let (new_code, w) := generate_content model prompt (record (Repaired prompt) w) in
      (write_text (extract_code new_code) w, Return tt)
  end.

(** ** [main] *)

Inductive Exit : Type :=
| Success (feedback : string)     (* "Agent completed successfully." *)
| Exhausted (feedback : string)   (* "All 3 attempts failed. ..." *)
| RangeDone                       (* the [for] ran out of attempts *)
| Crashed (e : Exn)               (* an exception left [main] *)
| MissingInput                    (* the sample PDF or CSV is missing *)
| NoClient.                       (* GOOGLE_API_KEY is not set *)

(** [for attempt in todo: ...], lines 195 to 210. *)
Fixpoint attempts (o : Interpreter) (model : Model) (csv : CsvTable)
    (todo : list nat) (w : World) : World * Exit :=
  match todo with
  | [] => (w, RangeDone)
  | attempt :: rest =>
      match run_parser_test o (parser_file w) csv with
      | Raise e => (record (Tested attempt None) w, Crashed e)
      | Return (success, feedback) =>
          let w := record (Tested attempt (Some success)) w in
          if success then (w, Success feedback)
          else if Nat.ltb attempt MAX_ATTEMPTS then
            match fix_parser model feedback w with
            | (w, Raise e) => (w, Crashed e)
            | (w, Return _) => attempts o model csv rest w
            end
          else (w, Exhausted feedback)
      end
  end.

(** [c.lower()] on the ASCII range. *)
Definition lower_char (c : ascii) : ascii :=
  let n := nat_of_ascii c in
  if Nat.leb 65 n && Nat.leb n 90 then ascii_of_nat (n + 32) else c.

Fixpoint lower (s : string) : string :=
  match s with
  | EmptyString => EmptyString
  | String c s' => String (lower_char c) (lower s')
  end.

(** What [main] finds when it starts: the [--target] argument, whether
    the two sample files exist, the API key of the environment, what
    [analyze_data] extracts for the prompt, and the fields of the CSV. *)
Record Inputs : Type := mkInputs {
  target : string;
  pdf_exists : bool;
  csv_exists : bool;
  GOOGLE_API_KEY : option string;
  pdf_text : string;
  csv_preview : string;
  csv : CsvTable
}.

Definition main (o : Interpreter) (model : Model) (i : Inputs) (w : World)
    : World * Exit :=
  let bank_name := lower (target i) in
  if negb (pdf_exists i && csv_exists i) then (w, MissingInput)
  else
    match GOOGLE_API_KEY i with
    | None => (w, NoClient)
    | Some api_key =>
        if String.eqb api_key EmptyString then (w, NoClient)
        else
          let w := generate_parser model bank_name (pdf_text i) (csv_preview i) w in
          attempts o model (csv i) (seq 1 MAX_ATTEMPTS) w
    end.

(** Counting what a run did. *)
Definition is_test (ev : Event) : bool :=
  match ev with Tested _ _ => true | _ => false end.

Definition is_repair (ev : Event) : bool :=
  match ev with Repaired _ => true | _ => false end.

Definition comparisons (w : World) : nat := length (filter is_test (events w)).

Definition repair_calls (w : World) : nat := length (filter is_repair (events w)).

Definition is_tested (ev : Event) : list nat :=
  match ev with Tested a _ => [a] | _ => [] end.

(** The attempts the validations of a run belong to, in order. *)
Definition tested_attempts (w : World) : list nat := flat_map is_tested (events w).

Definition initial_world (file : option string) : World := mkWorld file 0 [].

End Agent.

(* ================================================================== *)
(** * The vocabulary of the properties *)
(* ================================================================== *)

Module Terms.
Import Pandas Agent.

(** ** Rows *)

Fixpoint set_nth {A} (i : nat) (v : A) (l : list A) : list A :=
  match l, i with
  | [], _ => []
  | _ :: l', O => v :: l'
  | a :: l', S i' => a :: set_nth i' v l'
  end.

(** The values at the positions [i] and [j] change places. *)
Definition swap {A} (i j : nat) (l : list A) : list A :=
  match nth_error l i, nth_error l j with
  | Some a, Some b => set_nth j a (set_nth i b l)
  | _, _ => l
  end.

Definition swap_column {A} (i j : nat) (c : string * list A) : string * list A :=
  (fst c, swap i j (snd c)).

(** The frame whose rows [i] and [j] have changed places, under the same
    row labels and the same columns. *)
Definition swap_rows {A} (i j : nat) (df : DataFrame A) : DataFrame A :=
  mkDF (index df) (map (swap_column i j) (data df)).

(** The frame whose rows [i] and [j] have changed places together with
    their labels, as [df.iloc[...]] or a sort leaves them. *)
Definition move_rows {A} (i j : nat) (df : DataFrame A) : DataFrame A :=
  mkDF (swap i j (index df)) (map (swap_column i j) (data df)).

(** The values of row [i], column by column. *)
Definition row {A} (i : nat) (df : DataFrame A) : list (option A) :=
  map (fun c => nth_error (snd c) i) (data df).

(** ** The forms of a null *)

(** A missing value, or one of the texts ["nan"], ["<NA>"], ["None"], or
    the empty text. *)
Definition is_null_form (c : cell) : bool :=
  match c with
  | CNaN | CNone | CNA => true
  | CStr s => mem s NULL_TEXTS || String.eqb s EmptyString
  | CObj _ => false
  end.

(** The fields of the CSV that write a null in one of the same forms. *)
Definition NULL_FIELDS : list string := NULL_TEXTS ++ [EmptyString].

(** Two cells that are the same, or two forms of a null. *)
Definition null_equiv (a b : cell) : Prop :=
  a = b \/ (is_null_form a = true /\ is_null_form b = true).

Definition null_equiv_field (a b : string) : Prop :=
  a = b \/ (mem a NULL_FIELDS = true /\ mem b NULL_FIELDS = true).

Definition same_but {A} (R : A -> A -> Prop) (l r : list (string * list A)) : Prop :=
  Forall2 (fun c d => fst c = fst d /\ Forall2 R (snd c) (snd d)) l r.

(** ** Where the two normalisations part *)

(** The fields [read_csv] reads as missing that the clean-up of the
    produced side leaves as they are. *)
Definition OTHER_NA_VALUES : list string :=
  filter (fun t => negb (mem t NULL_FIELDS)) STR_NA_VALUES.

(** A text both sides normalise alike: neither one of those fields, nor
    a null text followed by a newline. *)
Definition plain (s : string) : bool :=
  negb (mem s OTHER_NA_VALUES)
  && negb (mem s (map (fun t => t ++ PyStr.newline) NULL_TEXTS)).

(** The CSV as a frame a candidate returns: the same text in every
    cell, under the row labels [read_csv] gives. *)
Definition csv_as_result (f : CsvTable) : DataFrame cell :=
  mkDF (RangeIndex (csv_records f)) (map (map_column CStr) (csv_fields f)).

(** ** Faults of a candidate *)

(** The exception a candidate ends [test_body] with before any data is
    looked at: raised by its import, by the look-up or the call of
    [parse], or by the two checks on what [parse] returned. *)
Definition candidate_fault (o : Interpreter) (code : string) : option Exn :=
  match exec_module o code with
  | Raise e => Some e
  | Return m =>
      match parse m with
      | None => Some AttributeError_parse
      | Some (Raise e) => Some e
      | Some (Return PyNone) => Some TypeError_None
      | Some (Return (PyOther t)) => Some (TypeError_type t)
      | Some (Return (PyDataFrame _)) => None
      end
  end.

(** [main] gets as far as the loop. *)
Definition ready (i : Inputs) : bool :=
  pdf_exists i && csv_exists i
  && match GOOGLE_API_KEY i with
     | Some k => negb (String.eqb k EmptyString)
     | None => false
     end.

(** The candidate [generate_parser] writes at the start of a run. *)
Definition first_candidate (model : Model) (i : Inputs) : string :=
  extract_code
    (model 0 (generate_prompt (lower (target i)) (pdf_text i) (csv_preview i))).

(** ** The hints of the repair prompt *)

Definition HINT_PAGES : string := "iterate through all pages".

Definition HINT_DEBIT_CREDIT : string :=
  "a transaction can only be one or the other".

Definition repair_prompts (w : World) : list string :=
  flat_map (fun ev => match ev with Repaired p => [p] | _ => [] end) (events w).

End Terms.

(* ================================================================== *)
(** * Sample runs *)
(* ================================================================== *)

Module Samples.
Import Pandas Agent Terms.

Definition statement : CsvTable :=
  mkCsv 2 [("Date", ["01-08-2024"; "02-08-2024"]);
           ("Debit", ["100.00"; EmptyString]);
           ("Credit", ["nan"; "250.50 "])].

(** A frame that matches [statement]: other column order, padded text,
    nulls in other forms. *)
Definition parsed : DataFrame cell :=
  mkDF [0%Z; 1%Z]
       [("Credit", [CNone; CStr "250.50"]);
        ("Date", [CStr " 01-08-2024"; CStr "02-08-2024"]);
        ("Debit", [CObj "100.00"; CNaN])].

(** The records of [statement] in the other order, each under its
    label. *)
Definition parsed_reordered : DataFrame cell :=
  mkDF [1%Z; 0%Z]
       [("Date", [CStr "02-08-2024"; CStr "01-08-2024"]);
        ("Debit", [CNaN; CStr "100.00"]);
        ("Credit", [CStr "250.50"; CNone])].

(** A frame with the first record only. *)
Definition first_page : DataFrame cell :=
  mkDF [0%Z]
       [("Date", [CStr "01-08-2024"]); ("Debit", [CStr "100.00"]);
        ("Credit", [CNaN])].

Definition RuntimeError : Exn := mkExn "RuntimeError" true "no table on page 1".

Definition SystemExit : Exn := mkExn "SystemExit" false "1".

Definition pandas_text (d : Difference) : string :=
  match d with
  | ShapeMismatch _ _ => "DataFrame are different

DataFrame shape mismatch"
  | IndexDifferent => "DataFrame.index are different"
  | ColumnsDifferent => "DataFrame.columns are different"
  | ValuesDifferent _ col => "DataFrame.iloc[:, i] (column name=" ++ col ++ ") are different"
  end.

(** An interpreter under which every candidate behaves as [m]. *)
Definition always (m : Outcome PyModule) : Interpreter :=
  mkInterpreter (fun _ => m)
                (fun e => "Traceback (most recent call last): " ++ exn_type e)
                pandas_text.

Definition returning (v : PyValue) : Interpreter :=
  always (Return (mkModule (Some (Return v)))).

Definition raising (e : Exn) : Interpreter :=
  always (Return (mkModule (Some (Raise e)))).

(** A model that answers with a fenced program, and one that answers
    with the bare program. *)
Definition fenced_model : Model :=
  fun _ _ => "Here is the parser:
```python
def parse(pdf_path):
    return None
```
".

Definition bare_model : Model :=
  fun _ _ => "def parse(pdf_path):
    return None
".

Definition inputs : Inputs :=
  mkInputs "ICICI" true true (Some "key") "Date Debit Credit" "Date,Debit,Credit"
           statement.

Definition padded_null : DataFrame cell := mkDF [0%Z] [("Credit", [CStr " nan"])].

Definition null_field : CsvTable := mkCsv 1 [("Remark", ["NULL"])].

End Samples.

(* ================================================================== *)
(** * [analyze_data] *)
(* ================================================================== *)

Module Analysis.
Import Pandas Agent.

(** What pdfplumber gives for a page: [page.extract_text()] returns
    text or [None], or raises. *)
Definition Page : Type := Outcome (option string).

(** What opening the PDF and reading [pdf.pages] gives. *)
Definition Pdf : Type := Outcome (list Page).

(** [sep.join(l)] *)
Fixpoint join (sep : string) (l : list string) : string :=
  match l with
  | [] => EmptyString
  | [s] => s
  | s :: rest => s ++ sep ++ join sep rest
  end.

(** [page.extract_text() or ""] for each page, in order. *)
Fixpoint page_texts (pages : list Page) : Outcome (list string) :=
  match pages with
  | [] => Return []
  | page :: rest =>
      text <- page ;;
      texts <- page_texts rest ;;
      Return (match text with
              | Some s => s
              | None => EmptyString
              end :: texts)
  end.

(** The [try] of [analyze_data] and its [except Exception as e]. *)
Definition extract_pdf_text (pdf : Pdf) : Outcome string :=
  try_except_Exception
    (pages <- pdf ;;
     texts <- page_texts (firstn 2 pages) ;;
     Return (join PyStr.newline texts))
    (fun e => Return ("[Could not extract text from PDF: " ++ exn_msg e ++ "]")).

(** The preview of the CSV: [table_text] is what [df.to_string()] gives
    for the first five records; [df.info()] prints and returns [None]. *)
Definition csv_preview_of (table_text : string) : string :=
  "
    First 5 rows of the target CSV:
    "
  ++ table_text
  ++ "

    Column names and data types of the target CSV:
    "
  ++ "None"
  ++ "
    ".

(** [analyze_data], for a CSV that [read_csv] reads. *)
Definition analyze_data (pdf : Pdf) (table_text : string) : Outcome (string * string) :=
  pdf_text <- extract_pdf_text pdf ;;
  Return (pdf_text, csv_preview_of table_text).

(** The text that stands between the fences of the prompt of
    [generate_parser]. *)
Definition prompt_pdf_text (pdf_text : string) : string :=
  if String.eqb pdf_text EmptyString then "[No extractable text detected.]"
  else pdf_text.

End Analysis.

(* ================================================================== *)
(** * Further vocabulary *)
(* ================================================================== *)

Module MoreTerms.
Import Pandas Agent.



(** A page whose text was extracted. *)
Definition page_read (p : Analysis.Page) : Prop := exists t, p = Return t.

End MoreTerms.

(* ================================================================== *)
(** * Properties of the text operations *)
(* ================================================================== *)

Module PyStrFacts.
Import PyStr.

Lemma rstrip_idempotent (s : string) : rstrip (rstrip s) = rstrip s.
Proof.
  induction s as [|c s IH]; simpl; [reflexivity|].
  destruct (rstrip s) as [|b r] eqn:E.
  - destruct (isspace c) eqn:Hc; simpl; [reflexivity|].
    now rewrite Hc.
  - change (rstrip (String c (String b r))) with
      (match rstrip (String b r) with
       | EmptyString => if isspace c then EmptyString else String c EmptyString
       | String x y => String c (String x y)
       end).
    now rewrite IH.
Qed.

Lemma lstrip_head (s : string) :
  lstrip s = EmptyString \/
  exists c r, lstrip s = String c r /\ isspace c = false.
Proof.
  induction s as [|c s IH]; simpl; [now left|].
  destruct (isspace c) eqn:Hc; [exact IH|].
  right. now exists c, s.
Qed.

Lemma rstrip_keeps_head (c : ascii) (s : string) :
  isspace c = false -> exists r, rstrip (String c s) = String c r.
Proof.
  intros Hc. simpl. destruct (rstrip s) as [|b r].
  - rewrite Hc. now exists EmptyString.
  - now exists (String b r).
Qed.

Lemma strip_head (s : string) :
  strip s = EmptyString \/
  exists c r, strip s = String c r /\ isspace c = false.
Proof.
  unfold strip. destruct (lstrip_head s) as [E | (c & r & E & Hc)]; rewrite E.
  - now left.
  - right. destruct (rstrip_keeps_head c r Hc) as [r' E'].
    rewrite E'. now exists c, r'.
Qed.

Lemma strip_idempotent (s : string) : strip (strip s) = strip s.
Proof.
  destruct (strip_head s) as [E | (c & r & E & Hc)].
  - now rewrite E.
  - unfold strip at 1. rewrite E. simpl lstrip. rewrite Hc.
    rewrite <- E. unfold strip. apply rstrip_idempotent.
Qed.

Lemma rstrip_strip (s : string) : rstrip (strip s) = strip s.
Proof. unfold strip. apply rstrip_idempotent. Qed.

Lemma startswith_app (p s t : string) :
  startswith p s = true -> startswith p (s ++ t) = true.
Proof.
  revert s. induction p as [|a p IH]; intros [|b s]; simpl; try easy.
  intros H. apply andb_true_iff in H as [H1 H2].
  rewrite H1. simpl. now apply IH.
Qed.

Lemma contains_app_l (p s t : string) :
  contains p s = true -> contains p (s ++ t) = true.
Proof.
  induction s as [|c s IH]; simpl.
  - rewrite orb_false_r. intros H.
    destruct p; [destruct t; reflexivity | discriminate].
  - intros H. apply orb_true_iff in H as [H | H].
    + change (String c (s ++ t)) with (String c s ++ t).
      rewrite (startswith_app _ _ _ H). reflexivity.
    + rewrite (IH H). apply orb_true_r.
Qed.

Lemma contains_app_r (p s t : string) :
  contains p s = true -> contains p (t ++ s) = true.
Proof.
  intros H. induction t as [|c t IH]; simpl; [exact H|].
  rewrite IH. apply orb_true_r.
Qed.

Lemma contains_middle (p a s b : string) :
  contains p s = true -> contains p (a ++ s ++ b) = true.
Proof. intros H. apply contains_app_r, contains_app_l, H. Qed.

Lemma split_go_nonempty (sep : string) (skip : nat) (cur s : string) :
  1 <= length (split_go sep skip cur s).
Proof.
  revert skip cur. induction s as [|c s IH]; intros skip cur; simpl; [lia|].
  destruct skip; [|apply IH].
  destruct (startswith sep (String c s)); [simpl; lia | apply IH].
Qed.

(** When the separator occurs, [split] yields a second piece: the
    indexing [s.split(sep)[1]] of the source cannot fail. *)
Lemma split_has_second (sep s : string) :
  sep <> EmptyString -> contains sep s = true -> 2 <= length (split sep s).
Proof.
  intros Hsep. unfold split. generalize EmptyString as cur.
  induction s as [|c s IH]; intros cur H.
  - simpl in H. destruct sep; [congruence | discriminate].
  - cbn [contains] in H. cbn [split_go].
    destruct (startswith sep (String c s)).
    + simpl. pose proof (split_go_nonempty sep (String.length sep - 1) EmptyString s). lia.
    + now apply IH.
Qed.

End PyStrFacts.

Example split_fenced :
  PyStr.split "```python" "Here:```python
x = 1
```done" = ["Here:"; "
x = 1
```done"].
Proof. reflexivity. Qed.

Example split_trailing : PyStr.split "```" "a```" = ["a"; EmptyString].
Proof. reflexivity. Qed.

Example strip_both : PyStr.strip "  nan 	" = "nan".
Proof. reflexivity. Qed.

(* ================================================================== *)
(** * Properties of the normalisation *)
(* ================================================================== *)

Module NormalFacts.
Import Pandas Agent.

Lemma map_column_compose {A B C} (f : A -> B) (g : B -> C) (c : string * list A) :
  map_column g (map_column f c) = map_column (fun x => g (f x)) c.
Proof. unfold map_column. simpl. now rewrite map_map. Qed.

Lemma applymap_compose {A B C} (f : A -> B) (g : B -> C) (df : DataFrame A) :
  applymap g (applymap f df) = applymap (fun x => g (f x)) df.
Proof.
  unfold applymap. simpl. f_equal. rewrite map_map.
  apply map_ext. intros c. apply map_column_compose.
Qed.

Lemma columns_applymap {A B} (f : A -> B) (df : DataFrame A) :
  columns (applymap f df) = columns df.
Proof. unfold columns, applymap. simpl. now rewrite map_map. Qed.

Lemma load_expected_cells (csv : CsvTable) :
  load_expected csv =
  mkDF (RangeIndex (csv_records csv)) (map (map_column expected_cell) (csv_fields csv)).
Proof.
  unfold load_expected. rewrite applymap_compose.
  unfold applymap, read_csv. simpl. f_equal. rewrite map_map.
  apply map_ext. intros c. now rewrite map_column_compose.
Qed.

(** *** The loop over the columns *)

Lemma count_label_columns {A} (col : string) (l : list (string * list A)) :
  length (filter (fun c => String.eqb col (fst c)) l) = count_label col (map fst l).
Proof.
  unfold count_label. induction l as [|c l IH]; simpl; [reflexivity|].
  destruct (String.eqb col (fst c)); simpl; now rewrite IH.
Qed.

Lemma getitem_str_unique {A} (df : DataFrame A) (col : string) (s : list A) :
  getitem_str df col = Return s -> count_label col (columns df) = 1.
Proof.
  unfold getitem_str, columns. rewrite <- count_label_columns.
  destruct (filter _ (data df)) as [|c [|c' l]]; simpl; congruence.
Qed.

Lemma columns_setitem {A} (df : DataFrame A) (col : string) (v : list A) :
  columns (setitem df col v) = columns df.
Proof.
  unfold columns, setitem. simpl. rewrite map_map. apply map_ext.
  intros c. now destruct (String.eqb col (fst c)).
Qed.

Lemma replace_nulls_columns (cols : list string) (df df' : DataFrame text_cell) :
  replace_nulls cols df = Return df' ->
  Forall (fun c => count_label c (columns df) = 1) cols /\ columns df' = columns df.
Proof.
  revert df. induction cols as [|col cols IH]; intros df H; simpl in H.
  - inversion H. subst. split; [constructor | reflexivity].
  - destruct (getitem_str df col) as [s|e] eqn:G; simpl in H; [|discriminate].
    apply IH in H as [H1 H2]. rewrite columns_setitem in H1, H2.
    split; [|exact H2]. constructor; [|exact H1].
    eapply getitem_str_unique, G.
Qed.

Lemma count_one_NoDup (l : list string) :
  Forall (fun c => count_label c l = 1) l -> NoDup l.
Proof.
  induction l as [|a l IH]; intros H; [constructor|].
  inversion H as [|? ? Ha Hl]. subst.
  unfold count_label in Ha. simpl in Ha. rewrite String.eqb_refl in Ha. simpl in Ha.
  constructor.
  - intros Hin. cut (1 <= length (filter (String.eqb a) l)); [lia|].
    clear - Hin. induction l as [|b l IH]; [destruct Hin|].
    simpl. destruct Hin as [-> | Hin].
    + rewrite String.eqb_refl. simpl. lia.
    + destruct (String.eqb a b); simpl; [lia | now apply IH].
  - apply IH. rewrite Forall_forall in Hl |- *. intros x Hx.
    specialize (Hl x Hx). unfold count_label in Hl |- *. simpl in Hl.
    destruct (String.eqb x a) eqn:E; simpl in Hl; [|exact Hl].
    apply String.eqb_eq in E. subst x.
    cut (1 <= length (filter (String.eqb a) l)); [lia|].
    clear - Hx. induction l as [|b l IH]; [destruct Hx|].
    simpl. destruct Hx as [-> | Hx].
    + rewrite String.eqb_refl. simpl. lia.
    + destruct (String.eqb a b); simpl; [lia | now apply IH].
Qed.

Lemma filter_absent {A} (col : string) (l : list (string * list A)) :
  ~ In col (map fst l) -> filter (fun c => String.eqb col (fst c)) l = [].
Proof.
  induction l as [|c l IH]; simpl; intros H; [reflexivity|].
  destruct (String.eqb col (fst c)) eqn:E.
  - apply String.eqb_eq in E. exfalso. apply H. now left.
  - apply IH. intros Hin. apply H. now right.
Qed.

Lemma setitem_absent {A} (col : string) (v : list A) (l : list (string * list A)) :
  ~ In col (map fst l) ->
  map (fun c => if String.eqb col (fst c) then (fst c, v) else c) l = l.
Proof.
  induction l as [|c l IH]; simpl; intros H; [reflexivity|].
  destruct (String.eqb col (fst c)) eqn:E.
  - apply String.eqb_eq in E. exfalso. apply H. now left.
  - f_equal. apply IH. intros Hin. apply H. now right.
Qed.

Lemma map_fst_map_column {A B} (f : A -> B) (l : list (string * list A)) :
  map fst (map (map_column f) l) = map fst l.
Proof. rewrite map_map. reflexivity. Qed.

Lemma replace_nulls_done (idx : list Z) (post done : list (string * list text_cell)) :
  NoDup (map fst (done ++ post)) ->
  replace_nulls (map fst post)
    (mkDF idx (map (map_column str_replace_null) done ++ post)) =
  Return (mkDF idx (map (map_column str_replace_null) (done ++ post))).
Proof.
  revert done. induction post as [|c post IH]; intros done ND.
  - simpl. now rewrite !app_nil_r.
  - cbn [map replace_nulls].
    assert (ND' := ND). rewrite map_app in ND'. cbn [map] in ND'.
    apply NoDup_remove in ND' as [_ Hnot].
    assert (H1 : ~ In (fst c) (map fst (map (map_column str_replace_null) done))).
    { rewrite map_fst_map_column. intros H. apply Hnot, in_or_app. now left. }
    assert (H2 : ~ In (fst c) (map fst post)).
    { intros H. apply Hnot, in_or_app. now right. }
    unfold getitem_str. cbn [data]. rewrite filter_app. cbn [filter].
    rewrite String.eqb_refl, (filter_absent _ _ H1), (filter_absent _ _ H2).
    cbn [app bind]. unfold setitem. cbn [index data].
    rewrite map_app. cbn [map]. rewrite String.eqb_refl.
    rewrite (setitem_absent _ _ _ H1), (setitem_absent _ _ _ H2).
    specialize (IH (done ++ [c])%list).
    rewrite <- app_assoc in IH. cbn [app] in IH. specialize (IH ND).
    rewrite map_app in IH. cbn [map] in IH. rewrite <- app_assoc in IH.
    exact IH.
Qed.

Lemma replace_nulls_NoDup (df : DataFrame text_cell) :
  NoDup (columns df) ->
  replace_nulls (columns df) df = Return (applymap str_replace_null df).
Proof.
  intros ND. destruct df as [idx l]. unfold columns, applymap in *. cbn [data index] in *.
  exact (replace_nulls_done idx l [] ND).
Qed.

(** With distinct column labels the produced side is normalised cell by
    cell. *)
Lemma normalize_result_cells (df : DataFrame cell) :
  NoDup (columns df) -> normalize_result df = Return (applymap result_cell df).
Proof.
  intros ND. unfold normalize_result.
  rewrite replace_nulls_NoDup by now rewrite columns_applymap.
  cbn [bind]. now rewrite !applymap_compose.
Qed.

(** With a label borne by two columns [result_df[col].str] raises: a
    frame that is normalised has distinct labels. *)
Lemma normalize_result_Return (df : DataFrame cell) (D : DataFrame string) :
  normalize_result df = Return D ->
  NoDup (columns df) /\ D = applymap result_cell df.
Proof.
  intros H. assert (ND : NoDup (columns df)).
  { unfold normalize_result in H.
    destruct (replace_nulls _ _) as [df'|e] eqn:R; [|discriminate].
    apply replace_nulls_columns in R as [R _].
    rewrite columns_applymap in R. now apply count_one_NoDup. }
  split; [exact ND|]. rewrite (normalize_result_cells df ND) in H. congruence.
Qed.

Lemma normalize_result_columns (df : DataFrame cell) (D : DataFrame string) :
  normalize_result df = Return D -> NoDup (columns D) /\ index D = index df.
Proof.
  intros H. apply normalize_result_Return in H as [ND ->].
  now rewrite columns_applymap.
Qed.

End NormalFacts.

(* ================================================================== *)
(** * Properties of the comparison *)
(* ================================================================== *)

Module CompareFacts.
Import Pandas.

Lemma list_eqb_string_eq (l r : list string) :
  list_eqb String.eqb l r = true <-> l = r.
Proof.
  revert r. induction l as [|a l IH]; intros [|b r]; simpl; try easy.
  rewrite andb_true_iff, String.eqb_eq, IH.
  split; [intros [-> ->]; reflexivity | intros H; inversion H; auto].
Qed.

Lemma list_eqb_Z_refl (l : list Z) : list_eqb Z.eqb l l = true.
Proof. induction l as [|a l IH]; simpl; [reflexivity|]. now rewrite Z.eqb_refl. Qed.

Lemma shape_eqb_refl (s : nat * nat) : shape_eqb s s = true.
Proof. unfold shape_eqb. now rewrite !Nat.eqb_refl. Qed.

Lemma same_labels_Z_refl (l : list Z) : same_labels_Z l l = true.
Proof.
  unfold same_labels_Z. apply forallb_forall. intros x _. apply Nat.eqb_refl.
Qed.

Lemma count_label_count_occ (x : string) (l : list string) :
  count_label x l = count_occ string_dec l x.
Proof.
  unfold count_label. induction l as [|a l IH]; simpl; [reflexivity|].
  destruct (String.eqb_spec x a) as [-> | Hne].
  - destruct (string_dec a a); [simpl; now rewrite IH | congruence].
  - destruct (string_dec a x); [congruence | exact IH].
Qed.

Lemma count_label_absent (x : string) (l : list string) :
  ~ In x l -> count_label x l = 0.
Proof. rewrite count_label_count_occ. apply count_occ_not_In. Qed.

Lemma same_labels_Permutation (l r : list string) :
  same_labels l r = true <-> Permutation l r.
Proof.
  unfold same_labels. rewrite forallb_forall. split.
  - intros H. apply (Permutation_count_occ string_dec). intros x.
    rewrite <- !count_label_count_occ.
    destruct (in_dec string_dec x (l ++ r)) as [Hin | Hout].
    + now apply Nat.eqb_eq, H.
    + rewrite !count_label_absent; [reflexivity | |];
        intros Hx; apply Hout, in_or_app; auto.
  - intros P x _. apply Nat.eqb_eq. rewrite !count_label_count_occ.
    now apply (Permutation_count_occ string_dec).
Qed.

Lemma nodupb_string (l : list string) : NoDup l -> nodupb String.eqb l = true.
Proof.
  induction 1 as [|a l Hnot ND IH]; simpl; [reflexivity|].
  rewrite IH, andb_true_r. apply negb_true_iff.
  destruct (existsb (String.eqb a) l) eqn:E; [|reflexivity].
  apply existsb_exists in E as (b & Hb & E). apply String.eqb_eq in E. now subst.
Qed.

Lemma list_eqb_string_same (l : list string) : list_eqb String.eqb l l = true.
Proof. now apply list_eqb_string_eq. Qed.

Lemma first_different_same (i : nat) (l : list (string * list string)) :
  first_different i l l = None.
Proof.
  revert i. induction l as [|c l IH]; intros i; simpl; [reflexivity|].
  now rewrite list_eqb_string_same.
Qed.

(** With distinct labels a label finds its own column. *)
Lemma find_unique {A} (l : list (string * list A)) (c : string * list A) :
  NoDup (map fst l) -> In c l ->
  find (fun x => String.eqb (fst c) (fst x)) l = Some c.
Proof.
  induction l as [|a l IH]; simpl; intros ND Hin; [destruct Hin|].
  inversion ND as [|? ? Hnot ND']. subst.
  destruct Hin as [-> | Hin]; [now rewrite String.eqb_refl|].
  destruct (String.eqb_spec (fst c) (fst a)) as [E | _]; [|now apply IH].
  exfalso. apply Hnot. rewrite <- E. now apply in_map.
Qed.

Lemma take_columns_all {A} (l r : list (string * list A)) :
  NoDup (map fst l) -> (forall c, In c r -> In c l) ->
  take_columns l (map fst r) = r.
Proof.
  intros ND. unfold take_columns. induction r as [|c r IH]; intros H; simpl; [reflexivity|].
  rewrite (find_unique l c ND) by (apply H; now left). simpl.
  f_equal. apply IH. intros x Hx. apply H. now right.
Qed.

(** The frame [reindex_like] gives when the right side holds the columns
    of the left side in another order, under the same row labels. *)
Lemma reindex_like_permuted (left right : DataFrame string) :
  NoDup (columns left) -> Permutation (data left) (data right) ->
  index right = index left ->
  reindex_like left right = Some right.
Proof.
  intros ND P Hidx. unfold reindex_like.
  rewrite Hidx, list_eqb_Z_refl. cbn [orb andb].
  rewrite (nodupb_string _ ND), orb_true_r.
  assert (T : take_columns (data left) (columns right) = data right).
  { apply take_columns_all; [exact ND|].
    intros c Hc. eapply Permutation_in; [symmetry; exact P | exact Hc]. }
  destruct (list_eqb String.eqb (columns left) (columns right)) eqn:E.
  - apply list_eqb_string_eq in E. rewrite <- E in T.
    unfold columns in T. rewrite take_columns_all in T by (auto).
    rewrite T. destruct right as [ri rd]. simpl in *. now subst.
  - rewrite T. destruct right as [ri rd]. simpl in *. now subst.
Qed.

Lemma assert_frame_equal_permuted (left right : DataFrame string) :
  NoDup (columns left) -> Permutation (data left) (data right) ->
  index right = index left ->
  assert_frame_equal left right = Equal.
Proof.
  intros ND P Hidx. unfold assert_frame_equal.
  assert (S : shape left = shape right).
  { unfold shape. now rewrite Hidx, (Permutation_length P). }
  rewrite S, shape_eqb_refl. cbn [negb].
  rewrite Hidx, same_labels_Z_refl. cbn [negb].
  assert (L : same_labels (columns left) (columns right) = true).
  { apply same_labels_Permutation. unfold columns. now apply Permutation_map. }
  rewrite L. cbn [negb].
  rewrite (reindex_like_permuted left right ND P Hidx).
  now rewrite first_different_same.
Qed.

(** A comparison that passes has found the same column labels on both
    sides, up to their order, and the same shape. *)
Lemma assert_frame_equal_Equal (left right : DataFrame string) :
  assert_frame_equal left right = Equal ->
  shape left = shape right /\ Permutation (columns left) (columns right).
Proof.
  unfold assert_frame_equal.
  destruct (shape_eqb (shape left) (shape right)) eqn:S; cbn [negb]; [|discriminate].
  destruct (same_labels_Z (index left) (index right)); cbn [negb]; [|discriminate].
  destruct (same_labels (columns left) (columns right)) eqn:L; cbn [negb]; [|discriminate].
  intros _. split; [|now apply same_labels_Permutation].
  unfold shape_eqb in S. apply andb_true_iff in S as [S1 S2].
  apply Nat.eqb_eq in S1, S2. destruct (shape left), (shape right). simpl in *. congruence.
Qed.

End CompareFacts.

(* ================================================================== *)
(** * Properties of the repair loop *)
(* ================================================================== *)

Module LoopFacts.
Import Pandas Agent Terms.

Lemma generate_parser_world (model : Model) (b p c : string) (w : World) :
  generate_parser model b p c w =
  mkWorld (Some (extract_code (model (model_calls w) (generate_prompt b p c))))
          (S (model_calls w))
          (events w ++ [Generated (generate_prompt b p c)]).
Proof. reflexivity. Qed.

Lemma fix_parser_world (model : Model) (fb code : string) (w : World) :
  parser_file w = Some code ->
  fix_parser model fb w =
  (mkWorld (Some (extract_code (model (model_calls w) (fix_prompt fb code))))
           (S (model_calls w))
           (events w ++ [Repaired (fix_prompt fb code)]),
   Return tt).
Proof. intros H. unfold fix_parser. now rewrite H. Qed.

(** What one call of [fix_parser] adds to the events. *)
Lemma fix_parser_events (model : Model) (fb : string) (w w1 : World) (r : Outcome unit) :
  fix_parser model fb w = (w1, r) ->
  (exists p, r = Return tt /\ events w1 = (events w ++ [Repaired p])%list) \/
  (exists e, r = Raise e /\ w1 = w).
Proof.
  unfold fix_parser. destruct (parser_file w) as [code|]; intros H; inversion H; subst.
  - left. now exists (fix_prompt fb code).
  - right. now exists FileNotFoundError.
Qed.

Lemma main_ready (o : Interpreter) (model : Model) (i : Inputs) (w : World) :
  ready i = true ->
  main o model i w =
  attempts o model (csv i) (seq 1 MAX_ATTEMPTS)
    (generate_parser model (lower (target i)) (pdf_text i) (csv_preview i) w).
Proof.
  unfold ready, main. intros H.
  apply andb_true_iff in H as [H1 H2]. rewrite H1. cbn [negb].
  destruct (GOOGLE_API_KEY i) as [k|]; [|discriminate].
  apply negb_true_iff in H2. now rewrite H2.
Qed.

Lemma main_not_ready (o : Interpreter) (model : Model) (i : Inputs) (w : World) :
  ready i = false -> fst (main o model i w) = w.
Proof.
  unfold ready, main. intros H.
  destruct (pdf_exists i && csv_exists i); cbn [negb]; [|reflexivity].
  destruct (GOOGLE_API_KEY i) as [k|]; [|reflexivity].
  cbn [andb] in H. apply negb_false_iff in H. now rewrite H.
Qed.

(** What a run of the loop adds to the events: one validation for each
    of the first [k] attempts, and no more repairs than there are
    attempts below the ceiling. *)
Lemma attempts_events (o : Interpreter) (model : Model) (csv : CsvTable)
    (todo : list nat) (w w' : World) (exit : Exit) :
  attempts o model csv todo w = (w', exit) ->
  exists evs k,
    events w' = (events w ++ evs)%list /\
    k <= length todo /\
    flat_map is_tested evs = firstn k todo /\
    length (filter is_test evs) = k /\
    length (filter is_repair evs)
      <= length (filter (fun a => Nat.ltb a MAX_ATTEMPTS) todo).
Proof.
  revert w. induction todo as [|a rest IH]; intros w H.
  - inversion H. subst. exists [], 0. rewrite app_nil_r. simpl. repeat split; lia.
  - cbn [attempts] in H.
    destruct (run_parser_test o (parser_file w) csv) as [[success fb]|e].
    + destruct success.
      * inversion H. subst. exists [Tested a (Some true)], 1.
        cbn [flat_map is_tested filter is_test is_repair app length firstn events record].
        repeat split; lia.
      * destruct (Nat.ltb a MAX_ATTEMPTS) eqn:Ha.
        -- destruct (fix_parser model fb (record (Tested a (Some false)) w))
             as [w1 r] eqn:F.
           apply fix_parser_events in F as [(p & -> & Ev) | (e & -> & ->)].
           ++ apply IH in H as (evs & k & E & Hk & T & C & R).
              exists (Tested a (Some false) :: Repaired p :: evs), (S k).
              rewrite E, Ev. cbn [events record]. rewrite <- !app_assoc.
              cbn [flat_map is_tested filter is_test is_repair app length firstn].
              rewrite Ha, T, C. cbn [length]. repeat split; lia.
           ++ inversion H. subst. exists [Tested a (Some false)], 1.
              cbn [flat_map is_tested filter is_test is_repair app length firstn events record].
              rewrite Ha. cbn [length]. repeat split; lia.
        -- inversion H. subst. exists [Tested a (Some false)], 1.
           cbn [flat_map is_tested filter is_test is_repair app length firstn events record].
           repeat split; lia.
    + inversion H. subst. exists [Tested a None], 1.
      cbn [flat_map is_tested filter is_test is_repair app length firstn events record].
      repeat split; lia.
Qed.

(** A failed validation below the ceiling is followed by a repair. *)
Lemma attempts_repair (o : Interpreter) (model : Model) (csv : CsvTable)
    (a : nat) (rest : list nat) (w : World) (fb code : string) :
  run_parser_test o (parser_file w) csv = Return (false, fb) ->
  Nat.ltb a MAX_ATTEMPTS = true ->
  parser_file w = Some code ->
  attempts o model csv (a :: rest) w =
  attempts o model csv rest
    (mkWorld (Some (extract_code (model (model_calls w) (fix_prompt fb code))))
             (S (model_calls w))
             ((events w ++ [Tested a (Some false)]) ++ [Repaired (fix_prompt fb code)])).
Proof.
  intros T Ha F. cbn [attempts]. rewrite T, Ha.
  now rewrite (fix_parser_world model fb code) by exact F.
Qed.

Lemma attempts_repaired (o : Interpreter) (model : Model) (csv : CsvTable)
    (a : nat) (rest : list nat) (w : World) (fb code : string) :
  run_parser_test o (parser_file w) csv = Return (false, fb) ->
  Nat.ltb a MAX_ATTEMPTS = true ->
  parser_file w = Some code ->
  exists w',
    attempts o model csv (a :: rest) w = attempts o model csv rest w' /\
    (exists code', parser_file w' = Some code') /\
    events w' =
      (events w ++ [Tested a (Some false); Repaired (fix_prompt fb code)])%list.
Proof.
  intros T Ha F. eexists. split; [exact (attempts_repair o model csv a rest w fb code T Ha F)|].
  cbn [parser_file events]. split; [now eexists|].
  now rewrite <- app_assoc.
Qed.

Lemma attempts_last (o : Interpreter) (model : Model) (csv : CsvTable)
    (a : nat) (rest : list nat) (w : World) (fb : string) :
  run_parser_test o (parser_file w) csv = Return (false, fb) ->
  Nat.ltb a MAX_ATTEMPTS = false ->
  attempts o model csv (a :: rest) w =
  (record (Tested a (Some false)) w, Exhausted fb).
Proof. intros T Ha. cbn [attempts]. now rewrite T, Ha. Qed.

Lemma attempts_success (o : Interpreter) (model : Model) (csv : CsvTable)
    (a : nat) (rest : list nat) (w : World) (fb : string) :
  run_parser_test o (parser_file w) csv = Return (true, fb) ->
  attempts o model csv (a :: rest) w =
  (record (Tested a (Some true)) w, Success fb).
Proof. intros T. cbn [attempts]. now rewrite T. Qed.

(** The first step of the loop, whatever the validation gives. *)
Lemma attempts_first (o : Interpreter) (model : Model) (csv : CsvTable)
    (a : nat) (rest : list nat) (w : World) (code : string) :
  parser_file w = Some code ->
  (exists fb, run_parser_test o (parser_file w) csv = Return (false, fb)) \/
  (exists v, v <> Some false /\
             fst (attempts o model csv (a :: rest) w) = record (Tested a v) w).
Proof.
  intros F. cbn [attempts].
  destruct (run_parser_test o (parser_file w) csv) as [[[] fb]|e].
  - right. exists (Some true). split; [discriminate | reflexivity].
  - left. now exists fb.
  - right. exists None. split; [discriminate | reflexivity].
Qed.

End LoopFacts.

(* ================================================================== *)
(** * The properties of the specification *)
(* ================================================================== *)

Import Pandas Agent Terms.

(** C1 (attempt bound).  In every run of [main] the loop validates at
    most [MAX_ATTEMPTS] = 3 times and repairs at most [MAX_ATTEMPTS - 1]
    = 2 times, and the validations are those of the attempts 1, 2, ...,
    one for each attempt begun.  In a run that enters the loop and in
    which every validation fails, there are exactly 3 validations and
    exactly 2 repairs, and the run ends in the exhausted state. *)
Theorem attempt_bound (o : Interpreter) (model : Model) (i : Inputs)
    (file : option string) :
  let run := main o model i (initial_world file) in
  (ready i = true ->
   (forall a v, In (Tested a v) (events (fst run)) -> v = Some false) ->
   (exists fb, snd run = Exhausted fb) /\
   comparisons (fst run) = MAX_ATTEMPTS /\
   repair_calls (fst run) = MAX_ATTEMPTS - 1)
  /\ comparisons (fst run) <= MAX_ATTEMPTS
  /\ repair_calls (fst run) <= MAX_ATTEMPTS - 1
  /\ tested_attempts (fst run) = seq 1 (comparisons (fst run)).
Proof.
  cbv zeta. split.
  - intros R Hall. rewrite (LoopFacts.main_ready _ _ _ _ R) in *.
    rewrite LoopFacts.generate_parser_world in *.
    change (seq 1 MAX_ATTEMPTS) with [1; 2; 3] in *.
    remember (mkWorld _ _ _) as w1 eqn:W1.
    assert (F1 : exists c, parser_file w1 = Some c) by (rewrite W1; now eexists).
    assert (E1 : exists p, events w1 = [Generated p]) by (rewrite W1; now eexists).
    clear W1. destruct F1 as [c1 F1]. destruct E1 as [p0 E1].
    (* attempt 1 *)
    destruct (LoopFacts.attempts_first o model (csv i) 1 [2; 3] w1 c1 F1)
      as [[fb1 T1] | (v & Hv & E)].
    2:{ exfalso. apply Hv, (Hall 1). rewrite E. cbn [events record].
        apply in_or_app. right. now left. }
    destruct (LoopFacts.attempts_repaired o model (csv i) 1 [2; 3] w1 fb1 c1 T1 eq_refl F1)
      as (w2 & A1 & [c2 F2] & E2).
    rewrite A1 in *. clear A1.
    (* attempt 2 *)
    destruct (LoopFacts.attempts_first o model (csv i) 2 [3] w2 c2 F2)
      as [[fb2 T2] | (v & Hv & E)].
    2:{ exfalso. apply Hv, (Hall 2). rewrite E. cbn [events record].
        apply in_or_app. right. now left. }
    destruct (LoopFacts.attempts_repaired o model (csv i) 2 [3] w2 fb2 c2 T2 eq_refl F2)
      as (w3 & A2 & [c3 F3] & E3).
    rewrite A2 in *. clear A2.
    (* attempt 3 *)
    destruct (LoopFacts.attempts_first o model (csv i) 3 [] w3 c3 F3)
      as [[fb3 T3] | (v & Hv & E)].
    2:{ exfalso. apply Hv, (Hall 3). rewrite E. cbn [events record].
        apply in_or_app. right. now left. }
    rewrite (LoopFacts.attempts_last o model (csv i) 3 [] w3 fb3 T3 eq_refl).
    cbn [fst snd]. split; [now exists fb3|].
    unfold comparisons, repair_calls. cbn [events record].
    rewrite E3, E2, E1. split; reflexivity.
  - destruct (ready i) eqn:R.
    + rewrite (LoopFacts.main_ready _ _ _ _ R).
      rewrite LoopFacts.generate_parser_world.
      destruct (attempts _ _ _ _ _) as [w' exit] eqn:A.
      apply LoopFacts.attempts_events in A as (evs & k & E & Hk & T & C & Rp).
      cbn [fst]. unfold comparisons, repair_calls, tested_attempts.
      rewrite E. cbn [events initial_world app].
      cbn [filter is_test is_repair flat_map app].
      rewrite T, C. change (seq 1 MAX_ATTEMPTS) with [1; 2; 3] in *.
      cbn in Hk, Rp. unfold MAX_ATTEMPTS. cbn [Nat.sub].
      repeat split; try lia.
      destruct k as [|[|[|[|k]]]]; try reflexivity. lia.
    + rewrite (LoopFacts.main_not_ready _ _ _ _ R). cbn. repeat split; lia.
Qed.

(** A run in which the [parse] of every candidate raises. *)
Lemma attempt_bound_witness :
  let run := main (Samples.raising Samples.RuntimeError) Samples.fenced_model
                  Samples.inputs (initial_world None) in
  (exists fb, snd run = Exhausted fb) /\
  comparisons (fst run) = MAX_ATTEMPTS /\
  repair_calls (fst run) = MAX_ATTEMPTS - 1.
Proof.
  apply (proj1 (attempt_bound (Samples.raising Samples.RuntimeError)
                              Samples.fenced_model Samples.inputs None)).
  - reflexivity.
  - intros a v H. vm_compute in H.
    repeat (destruct H as [H | H]; [try discriminate H; now inversion H|]).
    destruct H.
Defined.

(** ** What [run_parser_test] returns *)

Module TestFacts.

(** A candidate that returns a frame whose normalisation succeeds is
    judged by the comparison of the two normalised frames alone. *)
Lemma run_parser_test_frame (o : Interpreter) (code : string) (csv : CsvTable)
    (m : PyModule) (df : DataFrame cell) (D : DataFrame string) :
  exec_module o code = Return m ->
  parse m = Some (Return (PyDataFrame df)) ->
  normalize_result df = Return D ->
  run_parser_test o (Some code) csv =
  match assert_frame_equal (load_expected csv) D with
  | Equal => Return (true, PASSED)
  | Different d => Return (false, failure_feedback o (AssertionError o d))
  | CannotReindex => Return (false, failure_feedback o ValueError_reindex)
  end.
Proof.
  intros Hm Hp Hn. unfold run_parser_test, test_body, call_parse.
  rewrite Hm. cbn [bind]. rewrite Hp. cbn [bind]. rewrite Hn. cbn [bind].
  destruct (assert_frame_equal (load_expected csv) D); reflexivity.
Qed.

(** A fault of the candidate that derives from [Exception] becomes the
    feedback of a failed validation; another one leaves
    [run_parser_test]. *)
Lemma run_parser_test_fault (o : Interpreter) (code : string) (csv : CsvTable)
    (e : Exn) :
  candidate_fault o code = Some e ->
  run_parser_test o (Some code) csv =
  if exn_is_Exception e then Return (false, failure_feedback o e) else Raise e.
Proof.
  unfold candidate_fault, run_parser_test, test_body, call_parse.
  destruct (exec_module o code) as [m|e0]; cbn [bind try_except_Exception].
  - destruct (parse m) as [[[ | df | t]|e0]|]; cbn [bind try_except_Exception];
      intros H; inversion H; subst; try reflexivity.
  - intros H. inversion H. subst. reflexivity.
Qed.

End TestFacts.

(** C3 (success short-circuit).  When the candidate written by
    [generate_parser] returns a frame whose normalisation compares equal
    to the expected frame, the run ends successfully after exactly one
    validation and no repair. *)
Theorem success_short_circuit (o : Interpreter) (model : Model) (i : Inputs)
    (file : option string) (m : PyModule) (df : DataFrame cell)
    (D : DataFrame string) :
  ready i = true ->
  exec_module o (first_candidate model i) = Return m ->
  parse m = Some (Return (PyDataFrame df)) ->
  normalize_result df = Return D ->
  assert_frame_equal (load_expected (csv i)) D = Equal ->
  let run := main o model i (initial_world file) in
  snd run = Success PASSED /\
  comparisons (fst run) = 1 /\
  repair_calls (fst run) = 0.
Proof.
  intros R Hm Hp Hn Heq. cbv zeta.
  rewrite (LoopFacts.main_ready _ _ _ _ R), LoopFacts.generate_parser_world.
  change (seq 1 MAX_ATTEMPTS) with [1; 2; 3].
  rewrite (LoopFacts.attempts_success o model (csv i) 1 [2; 3] _ PASSED).
  - repeat split.
  - cbn [parser_file initial_world model_calls].
    fold (first_candidate model i).
    rewrite (TestFacts.run_parser_test_frame o _ (csv i) m df D Hm Hp Hn).
    now rewrite Heq.
Qed.

(** A run whose first candidate returns the records of the statement. *)
Lemma success_short_circuit_witness :
  let run := main (Samples.returning (PyDataFrame Samples.parsed))
                  Samples.fenced_model Samples.inputs (initial_world None) in
  snd run = Success PASSED /\
  comparisons (fst run) = 1 /\
  repair_calls (fst run) = 0.
Proof.
  apply (success_short_circuit
           (Samples.returning (PyDataFrame Samples.parsed))
           Samples.fenced_model Samples.inputs None
           (mkModule (Some (Return (PyDataFrame Samples.parsed))))
           Samples.parsed
           (applymap result_cell Samples.parsed)); reflexivity.
Defined.

(** C2 (fault containment), as the code has it.  A fault of the
    candidate that derives from [Exception] -- raised while the
    candidate is imported, [parse] is looked up or called, or by the
    checks that reject [None] and a value that is no frame -- does not
    leave [run_parser_test]: the validation returns a failure whose
    feedback carries the type, the message and the traceback of the
    fault.  The loop then calls the repair when the attempt is below
    [MAX_ATTEMPTS], and ends in the exhausted state otherwise. *)
Theorem fault_containment (o : Interpreter) (model : Model) (csv : CsvTable)
    (code : string) (e : Exn) :
  candidate_fault o code = Some e ->
  exn_is_Exception e = true ->
  run_parser_test o (Some code) csv = Return (false, failure_feedback o e) /\
  forall (attempt : nat) (rest : list nat) (w : World),
    parser_file w = Some code ->
    (attempt < MAX_ATTEMPTS ->
     exists w',
       attempts o model csv (attempt :: rest) w = attempts o model csv rest w' /\
       repair_calls w' = S (repair_calls w) /\
       repair_prompts w' =
         (repair_prompts w ++ [fix_prompt (failure_feedback o e) code])%list) /\
    (MAX_ATTEMPTS <= attempt ->
     attempts o model csv (attempt :: rest) w =
     (record (Tested attempt (Some false)) w, Exhausted (failure_feedback o e))).
Proof.
  intros Hf He.
  assert (T : run_parser_test o (Some code) csv = Return (false, failure_feedback o e)).
  { rewrite (TestFacts.run_parser_test_fault o code csv e Hf). now rewrite He. }
  split; [exact T|]. intros attempt rest w F. rewrite <- F in T. split.
  - intros Hlt. apply Nat.ltb_lt in Hlt.
    destruct (LoopFacts.attempts_repaired o model csv attempt rest w _ code T Hlt F)
      as (w' & A & _ & E).
    exists w'. split; [exact A|].
    unfold repair_calls, repair_prompts. rewrite E, filter_app, flat_map_app, length_app.
    cbn. split; [lia | reflexivity].
  - intros Hge. apply Nat.ltb_ge in Hge.
    exact (LoopFacts.attempts_last o model csv attempt rest w _ T Hge).
Qed.

(** A candidate whose [parse] raises a RuntimeError. *)
Lemma fault_containment_witness :
  run_parser_test (Samples.raising Samples.RuntimeError) (Some "def parse(p): raise")
                  Samples.statement =
  Return (false,
          failure_feedback (Samples.raising Samples.RuntimeError) Samples.RuntimeError).
Proof.
  apply (fault_containment (Samples.raising Samples.RuntimeError)
                           Samples.fenced_model Samples.statement
                           "def parse(p): raise" Samples.RuntimeError);
    reflexivity.
Defined.

(** C2 as stated fails twice.  A candidate whose [parse] raises
    [SystemExit] is a fault that [except Exception] does not catch: it
    leaves [run_parser_test] and ends [main] before any repair.  And a
    fault of the third attempt is followed by no repair: the run ends
    with that validation. *)
Lemma fault_containment_counterexample :
  candidate_fault (Samples.raising Samples.SystemExit) "import sys"
    = Some Samples.SystemExit /\
  run_parser_test (Samples.raising Samples.SystemExit) (Some "import sys")
                  Samples.statement = Raise Samples.SystemExit /\
  (let run := main (Samples.raising Samples.SystemExit) Samples.fenced_model
                   Samples.inputs (initial_world None) in
   snd run = Crashed Samples.SystemExit /\ repair_calls (fst run) = 0) /\
  (let run := main (Samples.raising Samples.RuntimeError) Samples.fenced_model
                   Samples.inputs (initial_world None) in
   last (events (fst run)) (Tested 0 None) = Tested 3 (Some false) /\
   repair_calls (fst run) = 2).
Proof. vm_compute. repeat split. Qed.

(** ** The two normalisations, cell by cell *)

Module CellFacts.

Lemma mem_In (s : string) (l : list string) : mem s l = true <-> In s l.
Proof.
  unfold mem. rewrite existsb_exists. split.
  - intros (t & Hin & E). apply String.eqb_eq in E. now subst.
  - intros H. exists s. split; [exact H | apply String.eqb_refl].
Qed.

Lemma STR_NA_VALUES_split (s : string) :
  mem s STR_NA_VALUES = true ->
  mem s NULL_FIELDS = true \/ mem s OTHER_NA_VALUES = true.
Proof.
  intros H. apply mem_In in H. cbn in H.
  repeat (destruct H as [<- | H]; [vm_compute; auto|]). destruct H.
Qed.

Lemma null_text_cells (s : string) :
  mem s NULL_TEXTS = true -> expected_cell s = EmptyString /\ result_cell (CStr s) = EmptyString.
Proof.
  intros H. apply mem_In in H. cbn in H.
  repeat (destruct H as [<- | H]; [now vm_compute|]). destruct H.
Qed.

Lemma null_field_cells (s : string) :
  mem s NULL_FIELDS = true -> expected_cell s = EmptyString /\ result_cell (CStr s) = EmptyString.
Proof.
  intros H. apply mem_In in H. cbn in H.
  repeat (destruct H as [<- | H]; [now vm_compute|]). destruct H.
Qed.

Lemma plain_cells (s : string) : plain s = true -> expected_cell s = result_cell (CStr s).
Proof.
  intros P. unfold plain in P. apply andb_true_iff in P as [P1 P2].
  apply negb_true_iff in P1, P2.
  destruct (mem s NULL_FIELDS) eqn:N.
  - destruct (null_field_cells s N) as [-> ->]. reflexivity.
  - assert (NA : mem s STR_NA_VALUES = false).
    { destruct (mem s STR_NA_VALUES) eqn:M; [|reflexivity].
      destruct (STR_NA_VALUES_split s M); congruence. }
    assert (NT : mem s NULL_TEXTS = false).
    { destruct (mem s NULL_TEXTS) eqn:M; [|reflexivity].
      apply mem_In in M. assert (In s NULL_FIELDS) by (apply in_or_app; now left).
      apply mem_In in H. congruence. }
    unfold expected_cell, result_cell, na_filter, astype_str, str_replace_null, sub_null.
    cbn [option_map]. now rewrite NA, NT, P2.
Qed.

Lemma is_null_form_cells (c : cell) : is_null_form c = true -> result_cell c = EmptyString.
Proof.
  destruct c as [s| | | |t]; cbn [is_null_form]; intros H; try reflexivity; [|discriminate].
  apply orb_true_iff in H as [H | H].
  - now apply null_text_cells.
  - apply String.eqb_eq in H. now subst.
Qed.

Lemma null_equiv_cells (a b : cell) : null_equiv a b -> result_cell a = result_cell b.
Proof.
  intros [-> | [Ha Hb]]; [reflexivity|].
  now rewrite (is_null_form_cells a Ha), (is_null_form_cells b Hb).
Qed.

Lemma null_equiv_field_cells (a b : string) :
  null_equiv_field a b -> expected_cell a = expected_cell b.
Proof.
  intros [-> | [Ha Hb]]; [reflexivity|].
  destruct (null_field_cells a Ha) as [-> _].
  destruct (null_field_cells b Hb) as [-> _]. reflexivity.
Qed.

End CellFacts.

(** ** The two normalisations, frame by frame *)

Module FrameFacts.
Import NormalFacts.

Lemma count_label_positive (c : string) (l : list string) :
  In c l -> 1 <= count_label c l.
Proof.
  unfold count_label. induction l as [|a l IH]; [intros []|].
  intros [-> | H]; simpl.
  - rewrite String.eqb_refl. simpl. lia.
  - destruct (String.eqb c a); simpl; [lia | now apply IH].
Qed.

Lemma replace_nulls_raise (cols : list string) (df : DataFrame text_cell) :
  (forall c, In c cols -> In c (columns df)) ->
  Exists (fun c => count_label c (columns df) <> 1) cols ->
  replace_nulls cols df = Raise AttributeError_str.
Proof.
  revert df. induction cols as [|col cols IH]; intros df Hin Hex.
  - inversion Hex.
  - cbn [replace_nulls]. unfold getitem_str.
    pose proof (count_label_columns col (data df)) as L. fold (columns df) in L.
    pose proof (count_label_positive col (columns df) (Hin col (or_introl eq_refl))) as P.
    destruct (filter _ (data df)) as [|c [|c' l]] eqn:F; cbn [length] in L.
    + lia.
    + cbn [bind]. apply IH.
      * intros x Hx. rewrite columns_setitem. apply Hin. now right.
      * rewrite columns_setitem. inversion Hex as [? ? H | ? ? H]; subst; [congruence | exact H].
    + reflexivity.
Qed.

(** A frame in which two columns bear one label is not normalised:
    [result_df[col].str] raises. *)
Lemma normalize_result_dup (df : DataFrame cell) :
  ~ NoDup (columns df) -> normalize_result df = Raise AttributeError_str.
Proof.
  intros ND. unfold normalize_result.
  rewrite replace_nulls_raise; [reflexivity | auto |].
  rewrite columns_applymap.
  apply neg_Forall_Exists_neg.
  - intros c. destruct (Nat.eq_dec (count_label c (columns df)) 1); auto.
  - intros H. apply ND. now apply count_one_NoDup.
Qed.

Lemma columns_same_but {A} (R : A -> A -> Prop) (l r : list (string * list A)) :
  same_but R l r -> map fst l = map fst r.
Proof.
  induction 1 as [|c d l r [H _] _ IH]; simpl; [reflexivity|]. now rewrite H, IH.
Qed.

Lemma map_Forall2 {A B} (R : A -> A -> Prop) (f : A -> B) (l r : list A) :
  (forall a b, R a b -> f a = f b) -> Forall2 R l r -> map f l = map f r.
Proof.
  intros H. induction 1 as [|a b l r Hab _ IH]; simpl; [reflexivity|].
  now rewrite (H a b Hab), IH.
Qed.

Lemma map_column_same_but {A B} (R : A -> A -> Prop) (f : A -> B)
    (l r : list (string * list A)) :
  (forall a b, R a b -> f a = f b) -> same_but R l r ->
  map (map_column f) l = map (map_column f) r.
Proof.
  intros H. induction 1 as [|c d l r [Hn Hv] _ IH]; simpl; [reflexivity|].
  unfold map_column at 1 3. now rewrite Hn, (map_Forall2 R f _ _ H Hv), IH.
Qed.

Lemma normalize_result_same_but (idx : list Z) (l r : list (string * list cell)) :
  same_but null_equiv l r ->
  normalize_result (mkDF idx l) = normalize_result (mkDF idx r).
Proof.
  intros S. pose proof (columns_same_but _ _ _ S) as N.
  destruct (ListDec.NoDup_dec string_dec (map fst l)) as [ND | ND].
  - rewrite !normalize_result_cells; [|unfold columns; cbn [data]; congruence | exact ND].
    unfold applymap. cbn [index data].
    now rewrite (map_column_same_but null_equiv result_cell l r CellFacts.null_equiv_cells S).
  - rewrite !normalize_result_dup; [reflexivity | | exact ND].
    unfold columns. cbn [data]. congruence.
Qed.

Lemma load_expected_same_but (n : nat) (l r : list (string * list string)) :
  same_but null_equiv_field l r ->
  load_expected (mkCsv n l) = load_expected (mkCsv n r).
Proof.
  intros S. rewrite !load_expected_cells. cbn [csv_records csv_fields].
  now rewrite (map_column_same_but null_equiv_field expected_cell l r
                 CellFacts.null_equiv_field_cells S).
Qed.

Lemma map_column_ext_in {A B} (f g : A -> B) (l : list (string * list A)) :
  (forall c a, In c l -> In a (snd c) -> f a = g a) ->
  map (map_column f) l = map (map_column g) l.
Proof.
  intros H. apply map_ext_in. intros c Hc. unfold map_column. f_equal.
  apply map_ext_in. intros a Ha. now apply (H c a).
Qed.

(** A candidate that hands back the text of the CSV as it is, all of it
    plain, is normalised to the expected frame. *)
Lemma csv_as_result_normalised (f : CsvTable) :
  NoDup (map fst (csv_fields f)) ->
  (forall c s, In c (csv_fields f) -> In s (snd c) -> plain s = true) ->
  normalize_result (csv_as_result f) = Return (load_expected f).
Proof.
  intros ND P. rewrite normalize_result_cells.
  - f_equal. rewrite load_expected_cells. unfold applymap, csv_as_result.
    cbn [index data]. f_equal. rewrite map_map.
    erewrite map_ext; [|intros c; apply map_column_compose].
    apply map_column_ext_in. intros c s Hc Hs. symmetry.
    apply CellFacts.plain_cells. now apply (P c s).
  - unfold columns, csv_as_result. cbn [data]. now rewrite map_fst_map_column.
Qed.

End FrameFacts.

(** C4 (one normalisation before the comparison), as the code has it.
    Each side is normalised in full before [assert_frame_equal] sees it,
    every cell of a side by one mapping; but the mappings of the two
    sides differ.  The expected side goes through the missing-value
    filter of [read_csv], [fillna('')] and [strip]; the produced side
    through [str], the collapse of exactly "nan", "<NA>" and "None",
    [fillna('')] and [strip].  The two agree on every text that is
    neither another missing-value token of [read_csv] nor a null text
    followed by a newline; a candidate that returns the CSV's own text,
    all of it such, is normalised to the expected frame. *)
Theorem normalisation_before_comparison :
  (forall csv, load_expected csv =
     mkDF (RangeIndex (csv_records csv))
          (map (map_column expected_cell) (csv_fields csv))) /\
  (forall df, NoDup (columns df) ->
     normalize_result df = Return (applymap result_cell df)) /\
  (forall o code csv m df,
     exec_module o code = Return m ->
     parse m = Some (Return (PyDataFrame df)) ->
     NoDup (columns df) ->
     run_parser_test o (Some code) csv =
     match assert_frame_equal (load_expected csv) (applymap result_cell df) with
     | Equal => Return (true, PASSED)
     | Different d => Return (false, failure_feedback o (AssertionError o d))
     | CannotReindex => Return (false, failure_feedback o ValueError_reindex)
     end) /\
  (forall s, plain s = true -> expected_cell s = result_cell (CStr s)) /\
  (forall f,
     NoDup (map fst (csv_fields f)) ->
     (forall c s, In c (csv_fields f) -> In s (snd c) -> plain s = true) ->
     normalize_result (csv_as_result f) = Return (load_expected f)).
Proof.
  split; [exact NormalFacts.load_expected_cells|].
  split; [exact NormalFacts.normalize_result_cells|].
  split.
  - intros o code csv m df Hm Hp ND.
    apply (TestFacts.run_parser_test_frame o code csv m df _ Hm Hp).
    now apply NormalFacts.normalize_result_cells.
  - split; [exact CellFacts.plain_cells | exact FrameFacts.csv_as_result_normalised].
Qed.

(** The text of the sample statement, handed back as it is. *)
Lemma normalisation_before_comparison_witness :
  normalize_result (csv_as_result Samples.statement)
  = Return (load_expected Samples.statement).
Proof.
  apply (proj2 (proj2 (proj2 (proj2 normalisation_before_comparison)))).
  - cbn. repeat constructor; cbn; intuition discriminate.
  - intros c s Hc Hs. cbn in Hc.
    repeat (destruct Hc as [<- | Hc];
            [cbn in Hs; repeat (destruct Hs as [<- | Hs]; [reflexivity|]); destruct Hs|]).
    destruct Hc.
Defined.

(** C4 as stated fails: the field NULL of the CSV is read as missing and
    becomes the empty text, while the same text in a produced cell stays
    NULL.  A candidate that returns the CSV's text as it is fails the
    validation. *)
Lemma normalisation_before_comparison_counterexample :
  expected_cell "NULL" = EmptyString /\
  result_cell (CStr "NULL") = "NULL" /\
  ~ (forall s, expected_cell s = result_cell (CStr s)) /\
  assert_frame_equal (load_expected Samples.null_field)
                     (applymap result_cell (csv_as_result Samples.null_field))
  = Different (ValuesDifferent 0 "Remark") /\
  exists fb,
    run_parser_test
      (Samples.returning (PyDataFrame (csv_as_result Samples.null_field)))
      (Some "def parse(p): ...") Samples.null_field = Return (false, fb).
Proof.
  split; [reflexivity|]. split; [reflexivity|]. split.
  - intros H. specialize (H "NULL"). vm_compute in H. discriminate H.
  - split; [reflexivity|]. eexists. vm_compute. reflexivity.
Qed.

(** C5 (null unification).  A cell that is missing (NaN, None, NA), or
    the text "nan", "<NA>" or "None", or the empty text, is normalised to
    the empty text, and so is a field of the CSV that writes one of these
    texts.  The comparison cannot tell the forms apart: frames that differ
    only by the form of their nulls have the same normalisation, on the
    produced side as on the expected side, and so the same verdict. *)
Theorem null_unification :
  (forall c, is_null_form c = true -> result_cell c = EmptyString) /\
  (forall s, mem s NULL_FIELDS = true -> expected_cell s = EmptyString) /\
  (forall idx l r,
     same_but null_equiv l r ->
     normalize_result (mkDF idx l) = normalize_result (mkDF idx r)) /\
  (forall n l r,
     same_but null_equiv_field l r ->
     load_expected (mkCsv n l) = load_expected (mkCsv n r)) /\
  (forall o code1 code2 m1 m2 n e1 e2 idx r1 r2,
     exec_module o code1 = Return m1 ->
     parse m1 = Some (Return (PyDataFrame (mkDF idx r1))) ->
     exec_module o code2 = Return m2 ->
     parse m2 = Some (Return (PyDataFrame (mkDF idx r2))) ->
     same_but null_equiv_field e1 e2 ->
     same_but null_equiv r1 r2 ->
     run_parser_test o (Some code1) (mkCsv n e1)
     = run_parser_test o (Some code2) (mkCsv n e2)).
Proof.
  split; [exact CellFacts.is_null_form_cells|].
  split; [intros s H; exact (proj1 (CellFacts.null_field_cells s H))|].
  split; [exact FrameFacts.normalize_result_same_but|].
  split; [exact FrameFacts.load_expected_same_but|].
  intros o code1 code2 m1 m2 n e1 e2 idx r1 r2 Hm1 Hp1 Hm2 Hp2 He Hr.
  unfold run_parser_test, test_body, call_parse.
  rewrite Hm1, Hm2. cbn [bind]. rewrite Hp1, Hp2. cbn [bind].
  rewrite (FrameFacts.normalize_result_same_but idx r1 r2 Hr).
  now rewrite (FrameFacts.load_expected_same_but n e1 e2 He).
Qed.

(** One column of nulls, in two choices of forms. *)
Lemma null_unification_witness :
  normalize_result
    (mkDF [0; 1; 2; 3]%Z [("Credit", [CNaN; CNone; CNA; CStr "nan"])])
  = normalize_result
      (mkDF [0; 1; 2; 3]%Z
            [("Credit", [CStr "<NA>"; CStr "None"; CStr EmptyString; CNaN])]).
Proof.
  apply (proj1 (proj2 (proj2 null_unification))).
  constructor; [|constructor]. split; [reflexivity|].
  repeat (constructor; [right; split; reflexivity|]). constructor.
Defined.

Example null_forms_compare_equal :
  normalize_result
    (mkDF [0; 1; 2; 3]%Z [("Credit", [CNaN; CStr "None"; CNA; CStr "nan"])])
  = Return (load_expected (mkCsv 4 [("Credit", ["<NA>"; EmptyString; "nan"; "None"])])).
Proof. reflexivity. Qed.

(** ** A second pass of the normalisation *)

Module SecondPass.

Lemma newline_null_not_stripped (s : string) :
  mem s (map (fun t => t ++ PyStr.newline) NULL_TEXTS) = true ->
  PyStr.rstrip s <> s.
Proof.
  intros H. apply CellFacts.mem_In in H. cbn in H.
  repeat (destruct H as [<- | H]; [vm_compute; discriminate|]). destruct H.
Qed.

(** A normalised cell that is none of the three null texts is left as
    it is by a second pass. *)
Lemma settled_cell (c : cell) :
  mem (result_cell c) NULL_TEXTS = false ->
  result_cell (CStr (result_cell c)) = result_cell c.
Proof.
  intros H. set (s := result_cell c) in *.
  assert (St : PyStr.strip s = s) by apply PyStrFacts.strip_idempotent.
  assert (Rs : PyStr.rstrip s = s) by apply PyStrFacts.rstrip_strip.
  unfold result_cell at 1. cbn [astype_str str_replace_null option_map fillna].
  unfold sub_null. rewrite H.
  destruct (mem s (map _ NULL_TEXTS)) eqn:M.
  - exfalso. exact (newline_null_not_stripped s M Rs).
  - exact St.
Qed.

(** Whatever the cell, a third pass changes nothing any more. *)
Lemma third_pass_cell (c : cell) :
  let s2 := result_cell (CStr (result_cell c)) in
  result_cell (CStr s2) = s2.
Proof.
  cbv zeta. destruct (mem (result_cell c) NULL_TEXTS) eqn:M.
  - destruct (CellFacts.null_text_cells _ M) as [_ ->]. reflexivity.
  - now rewrite !(settled_cell c M).
Qed.

Lemma map_column_fixed {A} (f : A -> A) (l : list (string * list A)) :
  (forall c a, In c l -> In a (snd c) -> f a = a) ->
  map (map_column f) l = l.
Proof.
  intros H. induction l as [|c l IH]; simpl; [reflexivity|].
  rewrite IH by (intros x a Hx; apply H; now right).
  f_equal. destruct c as [n v]. unfold map_column. simpl. f_equal.
  rewrite <- (map_id v) at 2. apply map_ext_in. intros a Ha.
  apply (H (n, v) a); [now left | exact Ha].
Qed.

Lemma cells_of_applymap {A B} (f : A -> B) (df : DataFrame A) (c : string * list B) (b : B) :
  In c (data (applymap f df)) -> In b (snd c) -> exists a, b = f a.
Proof.
  unfold applymap. cbn [data]. intros Hc Hb.
  apply in_map_iff in Hc as (c0 & <- & _). cbn [map_column snd] in Hb.
  apply in_map_iff in Hb as (a & <- & _). now exists a.
Qed.

End SecondPass.

(** C6 (idempotence of the normalisation), as the code has it.  A second
    pass leaves a normalised frame as it is provided none of its cells is
    the text "nan", "<NA>" or "None". *)
Theorem normalisation_idempotent_when_settled (df : DataFrame cell)
    (D : DataFrame string) :
  normalize_result df = Return D ->
  (forall c s, In c (data D) -> In s (snd c) -> mem s NULL_TEXTS = false) ->
  normalize_result (as_result D) = Return D.
Proof.
  intros H Hs. apply NormalFacts.normalize_result_Return in H as [ND ->].
  rewrite NormalFacts.normalize_result_cells
    by (unfold as_result; now rewrite !NormalFacts.columns_applymap).
  f_equal. unfold as_result. rewrite NormalFacts.applymap_compose.
  unfold applymap at 1. cbn [index].
  rewrite SecondPass.map_column_fixed; [reflexivity|].
  intros c s Hc Hin.
  destruct (SecondPass.cells_of_applymap result_cell df c s Hc Hin) as [a ->].
  apply SecondPass.settled_cell. now apply (Hs c).
Qed.

(** The normalised records of the sample statement. *)
Lemma normalisation_idempotent_when_settled_witness :
  normalize_result (as_result (applymap result_cell Samples.parsed))
  = Return (applymap result_cell Samples.parsed).
Proof.
  apply (normalisation_idempotent_when_settled Samples.parsed).
  - reflexivity.
  - intros c s Hc Hs. cbn in Hc.
    repeat (destruct Hc as [<- | Hc];
            [cbn in Hs; repeat (destruct Hs as [<- | Hs]; [reflexivity|]); destruct Hs|]).
    destruct Hc.
Defined.

(** C6 as stated fails: the text " nan" escapes the collapse, which wants
    the whole text, and is stripped to "nan"; a second pass collapses it
    to the empty text. *)
Lemma normalisation_idempotent_counterexample :
  normalize_result Samples.padded_null
    = Return (mkDF [0%Z] [("Credit", ["nan"])]) /\
  normalize_result (as_result (mkDF [0%Z] [("Credit", ["nan"])]))
    = Return (mkDF [0%Z] [("Credit", [EmptyString])]) /\
  ~ (forall df D, normalize_result df = Return D ->
                  normalize_result (as_result D) = Return D).
Proof.
  split; [reflexivity|]. split; [reflexivity|].
  intros H. specialize (H Samples.padded_null _ eq_refl).
  vm_compute in H. discriminate H.
Qed.

(** C7 (column order).  For a frame [D] with distinct column labels, as
    every normalised frame has, and any frame [D'] that holds the columns
    of [D] in another order under the same row labels, the comparison of
    the two passes, in either direction.  And a comparison that passes
    has found the same column labels on both sides, as a set. *)
Theorem column_order_irrelevant :
  (forall df D, normalize_result df = Return D -> NoDup (columns D)) /\
  (forall D D' : DataFrame string,
     NoDup (columns D) ->
     Permutation (data D) (data D') ->
     index D' = index D ->
     assert_frame_equal D D' = Equal /\ assert_frame_equal D' D = Equal) /\
  (forall L R : DataFrame string,
     assert_frame_equal L R = Equal -> Permutation (columns L) (columns R)).
Proof.
  split; [|split].
  - intros df D H. exact (proj1 (NormalFacts.normalize_result_columns df D H)).
  - intros D D' ND P Hidx. split.
    + now apply CompareFacts.assert_frame_equal_permuted.
    + apply CompareFacts.assert_frame_equal_permuted.
      * eapply Permutation_NoDup; [|exact ND].
        unfold columns. now apply Permutation_map.
      * now symmetry.
      * now symmetry.
  - intros L R H. exact (proj2 (CompareFacts.assert_frame_equal_Equal L R H)).
Qed.

(** The columns Date, Debit, Credit against Credit, Date, Debit. *)
Lemma column_order_irrelevant_witness :
  assert_frame_equal
    (mkDF [0%Z] [("Date", ["01-08-2024"]); ("Debit", ["100.00"]); ("Credit", [EmptyString])])
    (mkDF [0%Z] [("Credit", [EmptyString]); ("Date", ["01-08-2024"]); ("Debit", ["100.00"])])
  = Equal.
Proof.
  refine (proj1 (proj1 (proj2 column_order_irrelevant) _ _ _ _ _)).
  - cbn. repeat constructor; cbn; intuition discriminate.
  - cbn [data]. apply Permutation_sym.
    exact (Permutation_cons_append
             [("Date", ["01-08-2024"]); ("Debit", ["100.00"])] ("Credit", [EmptyString])).
  - reflexivity.
Defined.

(** ** Rows that change places *)

Module RowFacts.

Lemma length_set_nth {A} (i : nat) (v : A) (l : list A) :
  length (set_nth i v l) = length l.
Proof.
  revert i. induction l as [|a l IH]; intros [|i]; simpl; try reflexivity.
  now rewrite IH.
Qed.

Lemma nth_error_set_nth {A} (i : nat) (v : A) (l : list A) :
  i < length l -> nth_error (set_nth i v l) i = Some v.
Proof.
  revert i. induction l as [|a l IH]; intros [|i]; simpl; try lia; [reflexivity|].
  intros H. apply IH. lia.
Qed.

Lemma set_nth_same {A} (i : nat) (v : A) (l : list A) :
  nth_error l i = Some v -> set_nth i v l = l.
Proof.
  revert i. induction l as [|a l IH]; intros [|i]; simpl; try discriminate.
  - intros H. now inversion H.
  - intros H. now rewrite IH.
Qed.

Lemma swap_same {A} (i j : nat) (l : list A) :
  nth_error l i = nth_error l j -> swap i j l = l.
Proof.
  intros H. unfold swap. rewrite <- H.
  destruct (nth_error l i) as [a|] eqn:E; [|reflexivity].
  rewrite (set_nth_same i a l E). now apply set_nth_same; rewrite <- H.
Qed.

Lemma swap_different {A} (i j : nat) (l : list A) (a b : A) :
  nth_error l i = Some a -> nth_error l j = Some b -> a <> b -> swap i j l <> l.
Proof.
  intros Hi Hj Hab Heq. unfold swap in Heq. rewrite Hi, Hj in Heq.
  assert (Lj : j < length (set_nth i b l)).
  { rewrite length_set_nth. apply nth_error_Some. congruence. }
  pose proof (nth_error_set_nth j a _ Lj) as N. rewrite Heq, Hj in N. congruence.
Qed.

Lemma columns_swap_rows {A} (i j : nat) (df : DataFrame A) :
  columns (swap_rows i j df) = columns df.
Proof. unfold columns, swap_rows. cbn [data]. now rewrite map_map. Qed.

Lemma swap_rows_same {A} (i j : nat) (df : DataFrame A) :
  row i df = row j df -> swap_rows i j df = df.
Proof.
  destruct df as [idx l]. unfold row, swap_rows. cbn [index data]. intros H. f_equal.
  induction l as [|c l IH]; simpl in *; [reflexivity|].
  inversion H as [[H1 H2]]. rewrite (IH H2). f_equal.
  destruct c as [n v]. unfold swap_column. cbn [fst snd] in *. now rewrite swap_same.
Qed.

(** Rows that differ do so in some column. *)
Lemma rows_differ (i j : nat) (l : list (string * list string)) :
  map (fun c => nth_error (snd c) i) l <> map (fun c => nth_error (snd c) j) l ->
  exists c, In c l /\ nth_error (snd c) i <> nth_error (snd c) j.
Proof.
  induction l as [|c l IH]; simpl; intros H; [congruence|].
  assert (Dec : forall x y : option string, {x = y} + {x <> y}).
  { decide equality. apply string_dec. }
  destruct (Dec (nth_error (snd c) i) (nth_error (snd c) j)) as [E | N].
  - destruct IH as (d & Hd & Hn); [congruence|]. exists d. split; [now right | exact Hn].
  - exists c. split; [now left | exact N].
Qed.

Lemma first_different_swapped (i j : nat) (l : list (string * list string)) (k : nat) :
  (exists c, In c l /\ swap i j (snd c) <> snd c) ->
  exists k' col, first_different k l (map (swap_column i j) l) = Some (k', col).
Proof.
  revert k. induction l as [|c l IH]; intros k (d & Hd & Hn); [destruct Hd|].
  cbn [map first_different swap_column snd].
  destruct (list_eqb String.eqb (snd c) (swap i j (snd c))) eqn:E.
  - apply CompareFacts.list_eqb_string_eq in E.
    apply IH. destruct Hd as [-> | Hd]; [congruence|]. now exists d.
  - now exists k, (fst c).
Qed.

(** The comparison of two frames with the same row labels and the same
    column labels, both in the same order, is the pass over the
    columns. *)
Lemma assert_frame_equal_aligned (L R : DataFrame string) :
  index L = index R -> columns L = columns R ->
  assert_frame_equal L R =
  match first_different 0 (data L) (data R) with
  | Some (i, col) => Different (ValuesDifferent i col)
  | None => Equal
  end.
Proof.
  intros Hi Hc. unfold assert_frame_equal, reindex_like.
  assert (S : shape L = shape R).
  { unfold shape. rewrite Hi. f_equal.
    unfold columns in Hc. apply (f_equal (@length string)) in Hc.
    now rewrite !length_map in Hc. }
  rewrite S, CompareFacts.shape_eqb_refl. cbn [negb].
  rewrite Hi, CompareFacts.same_labels_Z_refl. cbn [negb].
  rewrite Hc. rewrite (proj2 (CompareFacts.same_labels_Permutation _ _) (Permutation_refl _)).
  cbn [negb]. rewrite CompareFacts.list_eqb_Z_refl, CompareFacts.list_eqb_string_same.
  cbn [orb andb data]. reflexivity.
Qed.

End RowFacts.

(** C8 (row order), as the code has it.  The comparison pairs the rows
    by their labels.  For a frame in which every column has a value for
    every row, changing the places of two rows that differ while the row
    labels stay makes the comparison with the original fail on the values
    of some column; changing the places of two rows that are alike leaves
    the frame as it is, and the comparison passes. *)
Theorem row_order_significant (D : DataFrame string) (i j : nat) :
  rectangular D ->
  i < length (index D) ->
  j < length (index D) ->
  (row i D <> row j D ->
   exists k col,
     assert_frame_equal D (swap_rows i j D) = Different (ValuesDifferent k col)) /\
  (row i D = row j D ->
   swap_rows i j D = D /\ assert_frame_equal D (swap_rows i j D) = Equal).
Proof.
  intros Rect Hi Hj.
  assert (A : assert_frame_equal D (swap_rows i j D) =
              match first_different 0 (data D) (data (swap_rows i j D)) with
              | Some (k, col) => Different (ValuesDifferent k col)
              | None => Equal
              end).
  { apply RowFacts.assert_frame_equal_aligned; [reflexivity|].
    now rewrite RowFacts.columns_swap_rows. }
  split.
  - intros Hrow. rewrite A. cbn [swap_rows data].
    destruct (RowFacts.rows_differ i j (data D) Hrow) as (c & Hc & Hn).
    destruct (RowFacts.first_different_swapped i j (data D) 0) as (k & col & F).
    + exists c. split; [exact Hc|].
      unfold rectangular in Rect. rewrite Forall_forall in Rect.
      specialize (Rect c Hc).
      destruct (nth_error (snd c) i) as [a|] eqn:Ei;
        [|apply nth_error_None in Ei; lia].
      destruct (nth_error (snd c) j) as [b|] eqn:Ej;
        [|apply nth_error_None in Ej; lia].
      apply (RowFacts.swap_different i j (snd c) a b Ei Ej). congruence.
    + exists k, col. now rewrite F.
  - intros Hrow. pose proof (RowFacts.swap_rows_same i j D Hrow) as E.
    split; [exact E|]. rewrite A, E. now rewrite CompareFacts.first_different_same.
Qed.

(** The two records of the sample statement, places changed. *)
Lemma row_order_significant_witness :
  exists k col,
    assert_frame_equal (load_expected Samples.statement)
                       (swap_rows 0 1 (load_expected Samples.statement))
    = Different (ValuesDifferent k col).
Proof.
  apply (row_order_significant (load_expected Samples.statement) 0 1).
  - repeat constructor.
  - cbn. lia.
  - cbn. lia.
  - cbn. discriminate.
Defined.

(** C8 as stated fails: with [check_like=True] the order of the row
    labels is ignored as that of the columns is.  A frame whose two
    rows, which differ, have changed places together with their labels
    compares equal to the original, and a candidate that returns the
    records of the CSV in the other order, each under its label, passes
    the validation. *)
Lemma row_order_significant_counterexample :
  let D := load_expected Samples.statement in
  row 0 D <> row 1 D /\
  row 0 (move_rows 0 1 D) = row 1 D /\
  assert_frame_equal D (move_rows 0 1 D) = Equal /\
  run_parser_test (Samples.returning (PyDataFrame Samples.parsed_reordered))
                  (Some "def parse(p): ...") Samples.statement
  = Return (true, PASSED).
Proof.
  cbv zeta. split; [vm_compute; discriminate|]. repeat split.
Qed.

(** ** The hints *)

Module HintFacts.

Lemma fix_prompt_hints (feedback code : string) :
  PyStr.contains HINT_PAGES (fix_prompt feedback code) = true /\
  PyStr.contains HINT_DEBIT_CREDIT (fix_prompt feedback code) = true.
Proof.
  unfold fix_prompt. split.
  - apply PyStrFacts.contains_app_r, PyStrFacts.contains_app_r,
      PyStrFacts.contains_app_l. now vm_compute.
  - apply PyStrFacts.contains_app_r, PyStrFacts.contains_app_r,
      PyStrFacts.contains_app_l. now vm_compute.
Qed.

End HintFacts.

(** C9 (the hints of the repair), as the code has it.  Every prompt
    [fix_parser] sends, whatever the feedback, holds both hints as fixed
    text: that the logic must iterate through all pages, and that a
    transaction is a debit or a credit.  So when a validation below the
    last attempt fails on the shape of the produced frame, the prompt of
    the repair that follows mentions the iteration over all pages, after
    a feedback that carries the type and the message of the failed
    assertion. *)
Theorem repair_hints :
  (forall feedback code,
     PyStr.contains HINT_PAGES (fix_prompt feedback code) = true /\
     PyStr.contains HINT_DEBIT_CREDIT (fix_prompt feedback code) = true) /\
  (forall o model csv code m df D l r attempt rest w,
     exec_module o code = Return m ->
     parse m = Some (Return (PyDataFrame df)) ->
     normalize_result df = Return D ->
     assert_frame_equal (load_expected csv) D = Different (ShapeMismatch l r) ->
     parser_file w = Some code ->
     attempt < MAX_ATTEMPTS ->
     exists w' p,
       attempts o model csv (attempt :: rest) w = attempts o model csv rest w' /\
       repair_prompts w' = (repair_prompts w ++ [p])%list /\
       p = fix_prompt (failure_feedback o (AssertionError o (ShapeMismatch l r))) code /\
       PyStr.contains HINT_PAGES p = true).
Proof.
  split; [exact HintFacts.fix_prompt_hints|].
  intros o model csv code m df D l r attempt rest w Hm Hp Hn Ha F Hlt.
  pose proof (TestFacts.run_parser_test_frame o code csv m df D Hm Hp Hn) as T.
  rewrite Ha, <- F in T. apply Nat.ltb_lt in Hlt.
  destruct (LoopFacts.attempts_repaired o model csv attempt rest w _ code T Hlt F)
    as (w' & A & _ & E).
  exists w', (fix_prompt (failure_feedback o (AssertionError o (ShapeMismatch l r))) code).
  split; [exact A|]. split.
  - unfold repair_prompts. rewrite E, flat_map_app. reflexivity.
  - split; [reflexivity | exact (proj1 (HintFacts.fix_prompt_hints _ _))].
Qed.

(** A candidate that returns the first record only, on attempt 1. *)
Lemma repair_hints_witness :
  exists w' p,
    attempts (Samples.returning (PyDataFrame Samples.first_page)) Samples.fenced_model
             Samples.statement [1; 2; 3] (mkWorld (Some "def parse(p): ...") 1 [])
    = attempts (Samples.returning (PyDataFrame Samples.first_page)) Samples.fenced_model
               Samples.statement [2; 3] w' /\
    repair_prompts w' = [p] /\
    p = fix_prompt
          (failure_feedback (Samples.returning (PyDataFrame Samples.first_page))
             (AssertionError (Samples.returning (PyDataFrame Samples.first_page))
                (ShapeMismatch (2, 3) (1, 3))))
          "def parse(p): ..." /\
    PyStr.contains HINT_PAGES p = true.
Proof.
  apply (proj2 repair_hints
           (Samples.returning (PyDataFrame Samples.first_page)) Samples.fenced_model
           Samples.statement "def parse(p): ..."
           (mkModule (Some (Return (PyDataFrame Samples.first_page))))
           Samples.first_page (applymap result_cell Samples.first_page)
           (2, 3) (1, 3) 1 [2; 3] (mkWorld (Some "def parse(p): ...") 1 []));
    try reflexivity.
  unfold MAX_ATTEMPTS. lia.
Defined.

(** C9 as stated fails: no kind of failure triggers a hint.  A candidate
    whose [parse] returns [None] fails with a TypeError, before any frame
    is compared, and the prompt of its repair holds the hint on the pages
    and the hint on Debit and Credit all the same; the feedback of a
    shape mismatch itself says nothing of pages. *)
Lemma repair_hints_counterexample :
  let o := Samples.returning PyNone in
  let code := "def parse(p): return None" in
  run_parser_test o (Some code) Samples.statement
    = Return (false, failure_feedback o TypeError_None) /\
  PyStr.contains "shape mismatch" (failure_feedback o TypeError_None) = false /\
  PyStr.contains HINT_PAGES (fix_prompt (failure_feedback o TypeError_None) code) = true /\
  PyStr.contains HINT_DEBIT_CREDIT (fix_prompt (failure_feedback o TypeError_None) code)
    = true /\
  PyStr.contains "pages"
    (failure_feedback o (AssertionError o (ShapeMismatch (2, 3) (1, 3)))) = false.
Proof. vm_compute. repeat split. Qed.

(** C10 (a response without fence).  When the text of the model's
    response does not contain the fence that opens a Python block, the
    initial generation and the repair both write that text to the parser
    file as it is; the text written differs from the response only when
    the fence is present. *)
Theorem unfenced_response_verbatim (model : Model) :
  (forall bank_name pdf_text csv_preview w,
     let text := model (model_calls w) (generate_prompt bank_name pdf_text csv_preview) in
     PyStr.contains FENCE text = false ->
     parser_file (generate_parser model bank_name pdf_text csv_preview w) = Some text) /\
  (forall feedback original_code w,
     parser_file w = Some original_code ->
     let text := model (model_calls w) (fix_prompt feedback original_code) in
     PyStr.contains FENCE text = false ->
     exists w', fix_parser model feedback w = (w', Return tt) /\
                parser_file w' = Some text) /\
  (forall text, extract_code text <> text -> PyStr.contains FENCE text = true).
Proof.
  split; [|split].
  - intros b p c w text H. rewrite LoopFacts.generate_parser_world.
    cbn [parser_file]. fold text. unfold extract_code. now rewrite H.
  - intros fb code w F text H.
    rewrite (LoopFacts.fix_parser_world model fb code w F). eexists. split; [reflexivity|].
    cbn [parser_file]. fold text. unfold extract_code. now rewrite H.
  - intros text H. unfold extract_code in H.
    destruct (PyStr.contains FENCE text); [reflexivity | congruence].
Qed.

(** A model that answers with the bare program. *)
Lemma unfenced_response_verbatim_witness :
  parser_file (generate_parser Samples.bare_model "icici" "Date Debit Credit"
                               "Date,Debit,Credit" (initial_world None))
  = Some "def parse(pdf_path):
    return None
".
Proof.
  apply (proj1 (unfenced_response_verbatim Samples.bare_model)
           "icici" "Date Debit Credit" "Date,Debit,Credit" (initial_world None)).
  reflexivity.
Defined.

Example fenced_response_extracted :
  parser_file (generate_parser Samples.fenced_model "icici" "Date Debit Credit"
                               "Date,Debit,Credit" (initial_world None))
  = Some "def parse(pdf_path):
    return None".
Proof. reflexivity. Qed.

(* ================================================================== *)
(** * Further properties of the code *)
(* ================================================================== *)

Import Analysis MoreTerms.

(** ** How a validation and a run can end *)

Module ExitFacts.

(** An exception that leaves [run_parser_test] does not derive from
    [Exception]. *)
Lemma run_parser_test_Raise (o : Interpreter) (file : option string)
    (csv : CsvTable) (e : Exn) :
  run_parser_test o file csv = Raise e -> exn_is_Exception e = false.
Proof.
  destruct file as [code|]; cbn [run_parser_test]; [|discriminate].
  unfold try_except_Exception. destruct (test_body o code csv) as [r|e0]; [discriminate|].
  destruct (exn_is_Exception e0) eqn:E; [discriminate|].
  intros H. inversion H. now subst.
Qed.

Lemma try_success {A} (body : Outcome (bool * A)) (h : Exn -> A) (a : A) :
  try_except_Exception body (fun e => Return (false, h e)) = Return (true, a) ->
  body = Return (true, a).
Proof.
  unfold try_except_Exception. destruct body as [r|e]; [now intros H|].
  destruct (exn_is_Exception e); discriminate.
Qed.

Lemma parser_file_record (ev : Event) (w : World) :
  parser_file (record ev w) = parser_file w.
Proof. reflexivity. Qed.

Lemma counts_record_tested (a : nat) (v : option bool) (w : World) :
  repair_calls (record (Tested a v) w) = repair_calls w /\
  model_calls (record (Tested a v) w) = model_calls w.
Proof.
  unfold repair_calls. cbn [events record model_calls]. rewrite filter_app.
  cbn. now rewrite app_nil_r.
Qed.

(** What stands behind a validation that passes. *)
Lemma run_parser_test_passed (o : Interpreter) (file : option string)
    (csv : CsvTable) (fb : string) :
  run_parser_test o file csv = Return (true, fb) ->
  fb = PASSED /\
  exists code m df,
    file = Some code /\
    exec_module o code = Return m /\
    parse m = Some (Return (PyDataFrame df)) /\
    NoDup (columns df) /\
    assert_frame_equal (load_expected csv) (applymap result_cell df) = Equal.
Proof.
  destruct file as [code|]; cbn [run_parser_test]; [|discriminate].
  intros H. apply try_success in H.
  unfold test_body, call_parse in H.
  destruct (exec_module o code) as [m|e] eqn:Hm; cbn [bind] in H; [|discriminate].
  destruct (parse m) as [[[ | df | t]|e]|] eqn:Hp; cbn [bind] in H; try discriminate.
  destruct (normalize_result df) as [D|e] eqn:Hn; cbn [bind] in H; [|discriminate].
  apply NormalFacts.normalize_result_Return in Hn as [ND ->].
  destruct (assert_frame_equal _ _) eqn:Ha; cbn [raise_unless_equal bind] in H;
    try discriminate.
  inversion H. split; [reflexivity|]. now exists code, m, df.
Qed.

End ExitFacts.

(** X17.  A validation passes only for a candidate that is imported,
    whose [parse] returns a frame with distinct column labels, and whose
    frame, once normalised cell by cell, compares equal to the expected
    frame; the feedback is then the fixed message of success. *)
Theorem validation_sound (o : Interpreter) (file : option string)
    (csv : CsvTable) (fb : string) :
  run_parser_test o file csv = Return (true, fb) ->
  fb = PASSED /\
  exists code m df,
    file = Some code /\
    exec_module o code = Return m /\
    parse m = Some (Return (PyDataFrame df)) /\
    NoDup (columns df) /\
    assert_frame_equal (load_expected csv) (applymap result_cell df) = Equal.
Proof. exact (ExitFacts.run_parser_test_passed o file csv fb). Qed.

(** A candidate that returns the records of the statement. *)
Lemma validation_sound_witness :
  PASSED = PASSED /\
  exists code m df,
    Some "def parse(p): ..." = Some code /\
    exec_module (Samples.returning (PyDataFrame Samples.parsed)) code = Return m /\
    parse m = Some (Return (PyDataFrame df)) /\
    NoDup (columns df) /\
    assert_frame_equal (load_expected Samples.statement) (applymap result_cell df) = Equal.
Proof.
  apply (validation_sound (Samples.returning (PyDataFrame Samples.parsed))
           (Some "def parse(p): ...") Samples.statement PASSED).
  reflexivity.
Defined.

Module RunFacts.

(** What the loop keeps and how it ends, from a state in which the
    parser file exists. *)
Lemma attempts_exit (o : Interpreter) (model : Model) (csv : CsvTable)
    (todo : list nat) (w w' : World) (exit : Exit) (code : string) :
  parser_file w = Some code ->
  attempts o model csv todo w = (w', exit) ->
  (exists code', parser_file w' = Some code') /\
  model_calls w' + repair_calls w = model_calls w + repair_calls w' /\
  match exit with
  | Success fb =>
      fb = PASSED /\ run_parser_test o (parser_file w') csv = Return (true, PASSED)
  | Exhausted fb => run_parser_test o (parser_file w') csv = Return (false, fb)
  | Crashed e =>
      exn_is_Exception e = false /\ run_parser_test o (parser_file w') csv = Raise e
  | RangeDone => Forall (fun a => a < MAX_ATTEMPTS) todo
  | MissingInput | NoClient => False
  end.
Proof.
  revert w code. induction todo as [|a rest IH]; intros w code F H.
  - inversion H. subst. split; [now exists code|]. split; [lia | constructor].
  - cbn [attempts] in H.
    destruct (run_parser_test o (parser_file w) csv) as [[success fb]|e] eqn:T.
    + destruct success.
      * inversion H. subst. rewrite ExitFacts.parser_file_record.
        destruct (ExitFacts.counts_record_tested a (Some true) w) as [-> ->].
        split; [now exists code|]. split; [lia|].
        destruct (ExitFacts.run_parser_test_passed o _ csv fb T) as [-> _]. now split.
      * destruct (Nat.ltb a MAX_ATTEMPTS) eqn:Ha.
        -- rewrite (LoopFacts.fix_parser_world model fb code) in H
             by (now rewrite ExitFacts.parser_file_record).
           eapply IH in H; [|reflexivity]. destruct H as (Hf & Hc & He).
           split; [exact Hf|]. split.
           ++ unfold repair_calls in *. cbn [events record model_calls] in Hc.
              rewrite !filter_app, !length_app in Hc. cbn in Hc. lia.
           ++ destruct exit; try exact He.
              constructor; [now apply Nat.ltb_lt | exact He].
        -- inversion H. subst. rewrite ExitFacts.parser_file_record.
           destruct (ExitFacts.counts_record_tested a (Some false) w) as [-> ->].
           split; [now exists code|]. split; [lia | exact T].
    + inversion H. subst. rewrite ExitFacts.parser_file_record.
      destruct (ExitFacts.counts_record_tested a None w) as [-> ->].
      split; [now exists code|]. split; [lia|].
      split; [exact (ExitFacts.run_parser_test_Raise o _ csv e T) | exact T].
Qed.

Lemma main_exit (o : Interpreter) (model : Model) (i : Inputs) (file : option string) :
  ready i = true ->
  let run := main o model i (initial_world file) in
  (exists code', parser_file (fst run) = Some code') /\
  model_calls (fst run) = S (repair_calls (fst run)) /\
  match snd run with
  | Success fb =>
      fb = PASSED /\
      run_parser_test o (parser_file (fst run)) (csv i) = Return (true, PASSED)
  | Exhausted fb =>
      run_parser_test o (parser_file (fst run)) (csv i) = Return (false, fb)
  | Crashed e =>
      exn_is_Exception e = false /\
      run_parser_test o (parser_file (fst run)) (csv i) = Raise e
  | RangeDone | MissingInput | NoClient => False
  end.
Proof.
  intros R. cbv zeta. rewrite (LoopFacts.main_ready _ _ _ _ R).
  rewrite LoopFacts.generate_parser_world.
  destruct (attempts _ _ _ _ _) as [w' exit] eqn:A.
  eapply attempts_exit in A; [|reflexivity]. destruct A as (Hf & Hc & He).
  cbn [fst snd]. split; [exact Hf|]. split.
  - unfold repair_calls in Hc at 1. cbn in Hc. lia.
  - destruct exit; try exact He.
    change (seq 1 MAX_ATTEMPTS) with [1; 2; 3] in He.
    inversion He as [|? ? _ He2]. inversion He2 as [|? ? _ He3].
    inversion He3 as [|? ? H3 _]. unfold MAX_ATTEMPTS in H3. lia.
Qed.

End RunFacts.




(** X3.  The model is called once for the first candidate and once for
    each repair, so at most [MAX_ATTEMPTS] times in a run; it is not
    called at all, and no file is written, when a sample or the key is
    missing. *)
Theorem model_call_accounting (o : Interpreter) (model : Model) (i : Inputs)
    (file : option string) :
  let run := main o model i (initial_world file) in
  model_calls (fst run) = (if ready i then S (repair_calls (fst run)) else 0) /\
  model_calls (fst run) <= MAX_ATTEMPTS /\
  (ready i = false -> parser_file (fst run) = file).
Proof.
  cbv zeta. destruct (ready i) eqn:R.
  - destruct (RunFacts.main_exit o model i file R) as (_ & Hc & _).
    split; [exact Hc|]. split; [|discriminate]. rewrite Hc.
    rewrite (LoopFacts.main_ready _ _ _ _ R), LoopFacts.generate_parser_world.
    destruct (attempts _ _ _ _ _) as [w' exit] eqn:A.
    apply LoopFacts.attempts_events in A as (evs & k & E & _ & _ & _ & Rp).
    cbn [fst]. unfold repair_calls. rewrite E, filter_app, length_app.
    cbn in Rp |- *. unfold MAX_ATTEMPTS. lia.
  - rewrite (LoopFacts.main_not_ready _ _ _ _ R). cbn. repeat split. lia.
Qed.

(** ** What a passing comparison means *)

Module EqualFacts.

Lemma first_different_None (k : nat) (l r : list (string * list string)) :
  length l = length r ->
  first_different k l r = None ->
  Forall2 (fun a b => snd a = snd b) l r.
Proof.
  revert k r. induction l as [|c l IH]; intros k [|d r] L H; try discriminate.
  - constructor.
  - cbn [first_different] in H.
    destruct (list_eqb String.eqb (snd c) (snd d)) eqn:E; [|discriminate].
    apply CompareFacts.list_eqb_string_eq in E.
    constructor; [exact E|]. apply (IH (S k)); [simpl in L; lia | exact H].
Qed.

Lemma same_columns {A} (l r : list (string * list A)) :
  map fst l = map fst r -> Forall2 (fun a b => snd a = snd b) l r -> l = r.
Proof.
  intros N F. induction F as [|[n v] [n' v'] l r Hv _ IH]; [reflexivity|].
  cbn in N, Hv. inversion N. subst. f_equal. now apply IH.
Qed.

Lemma find_label {A} (l : list (string * list A)) (n : string) :
  In n (map fst l) ->
  exists c, find (fun c => String.eqb n (fst c)) l = Some c /\ fst c = n /\ In c l.
Proof.
  induction l as [|a l IH]; [intros []|]. cbn [map find].
  destruct (String.eqb_spec n (fst a)) as [E | N].
  - intros _. exists a. repeat split; [now symmetry | now left].
  - intros [H | H]; [congruence|].
    destruct (IH H) as (c & F & Hn & Hin). exists c. repeat split; auto. now right.
Qed.

Lemma take_columns_labels {A} (l : list (string * list A)) (names : list string) :
  (forall n, In n names -> In n (map fst l)) ->
  map fst (take_columns l names) = names.
Proof.
  unfold take_columns. induction names as [|n names IH]; intros H; [reflexivity|].
  cbn [flat_map]. destruct (find_label l n (H n (or_introl eq_refl))) as (c & -> & Hn & _).
  cbn. rewrite Hn. f_equal. apply IH. intros x Hx. apply H. now right.
Qed.

Lemma take_columns_incl {A} (l : list (string * list A)) (names : list string)
    (c : string * list A) :
  In c (take_columns l names) -> In c l.
Proof.
  unfold take_columns. intros H. apply in_flat_map in H as (n & _ & H).
  destruct (find _ l) as [d|] eqn:F; [|destruct H].
  destruct H as [<- | []]. now apply find_some in F.
Qed.

Lemma NoDup_labels {A} (l : list (string * list A)) : NoDup (map fst l) -> NoDup l.
Proof. apply NoDup_map_inv. Qed.

(** The columns of [l] taken in the order of a rearrangement of its
    labels are a rearrangement of [l]. *)
Lemma take_columns_Permutation {A} (l : list (string * list A)) (names : list string) :
  NoDup (map fst l) -> Permutation (map fst l) names ->
  Permutation l (take_columns l names).
Proof.
  intros ND P. apply Permutation_sym.
  assert (Hn : map fst (take_columns l names) = names).
  { apply take_columns_labels. intros n Hin.
    eapply Permutation_in; [symmetry; exact P | exact Hin]. }
  apply NoDup_Permutation_bis.
  - apply NoDup_labels. rewrite Hn. eapply Permutation_NoDup; eauto.
  - rewrite <- (length_map fst (take_columns l names)), Hn.
    rewrite <- (Permutation_length P). now rewrite length_map.
  - intros c. apply take_columns_incl.
Qed.

Lemma assert_frame_equal_sound (L R : DataFrame string) :
  index L = index R -> NoDup (columns L) ->
  assert_frame_equal L R = Equal -> Permutation (data L) (data R).
Proof.
  intros Hi ND H. unfold assert_frame_equal in H.
  destruct (shape_eqb (shape L) (shape R)) eqn:S; cbn [negb] in H; [|discriminate].
  destruct (same_labels_Z (index L) (index R)); cbn [negb] in H; [|discriminate].
  destruct (same_labels (columns L) (columns R)) eqn:N; cbn [negb] in H; [|discriminate].
  apply CompareFacts.same_labels_Permutation in N.
  unfold shape_eqb, shape in S. cbn [fst snd] in S.
  apply andb_true_iff in S as [_ S]. apply Nat.eqb_eq in S.
  unfold reindex_like in H.
  rewrite Hi, CompareFacts.list_eqb_Z_refl in H. cbn [orb andb] in H.
  rewrite (CompareFacts.nodupb_string _ ND), orb_true_r in H.
  destruct (list_eqb String.eqb (columns L) (columns R)) eqn:E; cbn [data] in H.
  - apply CompareFacts.list_eqb_string_eq in E.
    destruct (first_different 0 (data L) (data R)) as [[k col]|] eqn:F; [discriminate|].
    apply first_different_None in F; [|exact S].
    now rewrite (same_columns _ _ E F).
  - destruct (first_different 0 _ (data R)) as [[k col]|] eqn:F; [discriminate|].
    assert (Hn : map fst (take_columns (data L) (columns R)) = columns R).
    { apply take_columns_labels. intros n Hin.
      eapply Permutation_in; [symmetry; exact N | exact Hin]. }
    apply first_different_None in F.
    + rewrite <- (same_columns _ _ Hn F). now apply take_columns_Permutation.
    + rewrite <- (length_map fst (take_columns _ _)), Hn. unfold columns.
      now rewrite length_map.
Qed.

End EqualFacts.

(** X4.  Between two frames with the same row labels in the same order,
    the left one with distinct column labels, the comparison passes
    exactly when the right frame holds the columns of the left one, the
    same labels with the same values, in some order. *)
Theorem comparison_characterised (L R : DataFrame string) :
  index L = index R ->
  NoDup (columns L) ->
  (assert_frame_equal L R = Equal <-> Permutation (data L) (data R)).
Proof.
  intros Hi ND. split.
  - now apply EqualFacts.assert_frame_equal_sound.
  - intros P. now apply CompareFacts.assert_frame_equal_permuted.
Qed.

(** The expected frame of the sample statement against itself. *)
Lemma comparison_characterised_witness :
  assert_frame_equal (load_expected Samples.statement) (load_expected Samples.statement)
    = Equal <->
  Permutation (data (load_expected Samples.statement))
              (data (load_expected Samples.statement)).
Proof.
  apply (comparison_characterised (load_expected Samples.statement)
                                  (load_expected Samples.statement)).
  - reflexivity.
  - cbn. repeat constructor; cbn; intuition discriminate.
Defined.

(** X5.  A candidate whose frame has two columns under one label fails
    the validation with the AttributeError of [result_df[col].str],
    whatever the data and whatever the expected table: no comparison
    takes place. *)
Theorem duplicate_labels_rejected (o : Interpreter) (code : string)
    (csv : CsvTable) (m : PyModule) (df : DataFrame cell) :
  exec_module o code = Return m ->
  parse m = Some (Return (PyDataFrame df)) ->
  ~ NoDup (columns df) ->
  run_parser_test o (Some code) csv
  = Return (false, failure_feedback o AttributeError_str).
Proof.
  intros Hm Hp ND. unfold run_parser_test, test_body, call_parse.
  rewrite Hm. cbn [bind]. rewrite Hp. cbn [bind].
  now rewrite (FrameFacts.normalize_result_dup df ND).
Qed.

(** A frame with the column Debit twice. *)
Lemma duplicate_labels_rejected_witness :
  let df := mkDF [0%Z] [("Debit", [CStr "100.00"]); ("Debit", [CStr "100.00"])] in
  run_parser_test (Samples.returning (PyDataFrame df)) (Some "def parse(p): ...")
                  (mkCsv 1 [("Debit", ["100.00"]); ("Debit.1", ["100.00"])])
  = Return (false,
            failure_feedback (Samples.returning (PyDataFrame df)) AttributeError_str).
Proof.
  cbv zeta.
  apply (duplicate_labels_rejected _ _ _
           (mkModule (Some (Return (PyDataFrame
              (mkDF [0%Z] [("Debit", [CStr "100.00"]); ("Debit", [CStr "100.00"])])))))
           (mkDF [0%Z] [("Debit", [CStr "100.00"]); ("Debit", [CStr "100.00"])]));
    try reflexivity.
  cbn. intros H. inversion H as [|? ? Hn _]. apply Hn. now left.
Defined.



(** X7.  A candidate that returns a frame with distinct column labels
    but not the shape of the expected table -- another number of rows or
    of columns -- fails the validation with the AssertionError of a shape
    mismatch, which reports the shape of the CSV, its records by its
    columns, and the shape of the frame returned. *)
Theorem shape_mismatch_reported (o : Interpreter) (code : string)
    (csv : CsvTable) (m : PyModule) (df : DataFrame cell) :
  exec_module o code = Return m ->
  parse m = Some (Return (PyDataFrame df)) ->
  NoDup (columns df) ->
  shape df <> (csv_records csv, length (csv_fields csv)) ->
  run_parser_test o (Some code) csv
  = Return (false,
            failure_feedback o
              (AssertionError o
                 (ShapeMismatch (csv_records csv, length (csv_fields csv)) (shape df)))).
Proof.
  intros Hm Hp ND Hs.
  rewrite (TestFacts.run_parser_test_frame o code csv m df _ Hm Hp
             (NormalFacts.normalize_result_cells df ND)).
  unfold assert_frame_equal.
  assert (SE : shape (load_expected csv) = (csv_records csv, length (csv_fields csv))).
  { rewrite NormalFacts.load_expected_cells. unfold shape, RangeIndex. cbn [index data].
    now rewrite !length_map, length_seq. }
  assert (SR : shape (applymap result_cell df) = shape df).
  { unfold shape, applymap. cbn [index data]. now rewrite length_map. }
  rewrite SE, SR.
  destruct (shape_eqb _ (shape df)) eqn:E; [|reflexivity].
  exfalso. apply Hs. unfold shape_eqb in E. cbn [fst snd] in E.
  apply andb_true_iff in E as [E1 E2]. apply Nat.eqb_eq in E1, E2.
  destruct (shape df). cbn in *. congruence.
Qed.

(** The first record alone against the two records of the sample. *)
Lemma shape_mismatch_reported_witness :
  run_parser_test (Samples.returning (PyDataFrame Samples.first_page))
                  (Some "def parse(p): ...") Samples.statement
  = Return (false,
            failure_feedback (Samples.returning (PyDataFrame Samples.first_page))
              (AssertionError (Samples.returning (PyDataFrame Samples.first_page))
                 (ShapeMismatch (2, 3) (1, 3)))).
Proof.
  apply (shape_mismatch_reported
           (Samples.returning (PyDataFrame Samples.first_page))
           "def parse(p): ..." Samples.statement
           (mkModule (Some (Return (PyDataFrame Samples.first_page))))
           Samples.first_page); try reflexivity.
  - cbn. repeat constructor; cbn; intuition discriminate.
  - cbn. discriminate.
Defined.

(** ** The clean-up of a response *)

Module SplitFacts.
Import PyStr.


Lemma append_assoc (a b c : string) : (a ++ b) ++ c = a ++ (b ++ c).
Proof. induction a as [|x a IH]; simpl; [reflexivity | now rewrite IH]. Qed.










End SplitFacts.



(** ** What the feedback and the prompts carry *)

Module CarryFacts.
Import PyStr.

Lemma startswith_refl (s : string) : startswith s s = true.
Proof.
  induction s as [|c s IH]; [reflexivity|]. cbn. now rewrite Ascii.eqb_refl.
Qed.

Lemma contains_refl (s : string) : contains s s = true.
Proof. destruct s; cbn; [reflexivity|]. now rewrite Ascii.eqb_refl, startswith_refl. Qed.

Lemma contains_here (a s b : string) : contains s (a ++ s ++ b) = true.
Proof. apply PyStrFacts.contains_middle, contains_refl. Qed.

(** [replace] acts piece by piece. *)
Lemma replace_char_app (a : ascii) (b x y : string) :
  replace_char a b (x ++ y) = replace_char a b x ++ replace_char a b y.
Proof.
  induction x as [|c x IH]; [reflexivity|].
  cbn. rewrite IH. now rewrite SplitFacts.append_assoc.
Qed.

Lemma replace_char_absent (a : ascii) (b s : string) :
  contains (String a EmptyString) s = false -> replace_char a b s = s.
Proof.
  induction s as [|c s IH]; [reflexivity|].
  cbn. intros H. apply orb_false_iff in H as [H1 H2].
  rewrite andb_true_r in H1. rewrite Ascii.eqb_sym, H1. cbn. now rewrite (IH H2).
Qed.

(** The body of the [try] returns on success only. *)
Lemma test_body_Return (o : Interpreter) (code : string) (csv : CsvTable)
    (r : bool * string) :
  test_body o code csv = Return r -> r = (true, PASSED).
Proof.
  unfold test_body, call_parse.
  destruct (exec_module o code) as [m|e]; cbn [bind]; [|discriminate].
  destruct (parse m) as [[[ | df | t]|e]|]; cbn [bind]; try discriminate.
  destruct (normalize_result df) as [D|e]; cbn [bind]; [|discriminate].
  destruct (assert_frame_equal _ _); cbn [raise_unless_equal bind]; try discriminate.
  intros H. now inversion H.
Qed.

End CarryFacts.

(** X9.  The feedback of a failed validation of an existing parser file
    is always that of an exception that derives from [Exception]: it
    names the type of the exception, quotes its message with every
    newline followed by two spaces, and ends with the traceback. *)
Theorem failure_reported (o : Interpreter) (code : string) (csv : CsvTable)
    (fb : string) :
  run_parser_test o (Some code) csv = Return (false, fb) ->
  exists e,
    test_body o code csv = Raise e /\
    exn_is_Exception e = true /\
    fb = failure_feedback o e /\
    PyStr.contains (exn_type e) fb = true /\
    PyStr.contains (format_exc o e) fb = true /\
    (forall first rest,
       exn_msg e = first ++ PyStr.newline ++ rest ->
       PyStr.contains PyStr.newline first = false ->
       PyStr.contains PyStr.newline rest = false ->
       PyStr.contains (first ++ PyStr.newline ++ "  " ++ rest) fb = true) /\
    (PyStr.contains PyStr.newline (exn_msg e) = false ->
     PyStr.contains (exn_msg e) fb = true).
Proof.
  cbn [run_parser_test]. unfold try_except_Exception.
  destruct (test_body o code csv) as [r|e] eqn:T.
  - intros H. apply CarryFacts.test_body_Return in T. subst r. discriminate.
  - destruct (exn_is_Exception e) eqn:E; [|discriminate].
    intros H. inversion H. exists e.
    split; [reflexivity|]. split; [exact E|]. split; [reflexivity|].
    unfold failure_feedback. cbv zeta.
    split; [apply CarryFacts.contains_here|]. split.
    + do 4 apply PyStrFacts.contains_app_r. apply CarryFacts.contains_here.
    + split.
      * intros first rest Hm Hfirst Hrest. rewrite Hm.
        rewrite !CarryFacts.replace_char_app.
        rewrite (CarryFacts.replace_char_absent _ _ first Hfirst).
        rewrite (CarryFacts.replace_char_absent _ _ rest Hrest).
        change (PyStr.replace_char (ascii_of_nat 10) (PyStr.newline ++ "  ") PyStr.newline)
          with (PyStr.newline ++ "  ").
        rewrite (SplitFacts.append_assoc PyStr.newline "  " rest).
        do 2 apply PyStrFacts.contains_app_r. apply CarryFacts.contains_here.
      * intros Hn. rewrite (CarryFacts.replace_char_absent _ _ _ Hn).
        do 2 apply PyStrFacts.contains_app_r. apply CarryFacts.contains_here.
Qed.

(** The feedback for a candidate that returns [None]. *)
Lemma failure_reported_witness :
  exists e,
    test_body (Samples.returning PyNone) "def parse(p): return None" Samples.statement
      = Raise e /\
    exn_is_Exception e = true /\
    failure_feedback (Samples.returning PyNone) TypeError_None
      = failure_feedback (Samples.returning PyNone) e.
Proof.
  destruct (failure_reported (Samples.returning PyNone) "def parse(p): return None"
              Samples.statement
              (failure_feedback (Samples.returning PyNone) TypeError_None) eq_refl)
    as (e & H1 & H2 & H3 & _).
  exists e. auto.
Defined.

(** X10.  A repair sends the model the feedback of the validation that
    just failed and the whole text of the candidate that failed, both
    as they are, in one prompt; the next candidate is the cleaned-up
    answer to that prompt, and it replaces the file. *)
Theorem repair_step (o : Interpreter) (model : Model) (csv : CsvTable)
    (attempt : nat) (rest : list nat) (w : World) (fb code : string) :
  parser_file w = Some code ->
  run_parser_test o (Some code) csv = Return (false, fb) ->
  attempt < MAX_ATTEMPTS ->
  exists w',
    attempts o model csv (attempt :: rest) w = attempts o model csv rest w' /\
    repair_prompts w' = (repair_prompts w ++ [fix_prompt fb code])%list /\
    PyStr.contains fb (fix_prompt fb code) = true /\
    PyStr.contains code (fix_prompt fb code) = true /\
    parser_file w' = Some (extract_code (model (model_calls w) (fix_prompt fb code))) /\
    model_calls w' = S (model_calls w).
Proof.
  intros F T Hlt. rewrite <- F in T. apply Nat.ltb_lt in Hlt.
  eexists. split; [exact (LoopFacts.attempts_repair o model csv attempt rest w fb code T Hlt F)|].
  cbn [parser_file model_calls]. unfold repair_prompts. cbn [events].
  rewrite !flat_map_app. cbn [flat_map app]. rewrite app_nil_r.
  split; [reflexivity|]. unfold fix_prompt.
  split; [apply CarryFacts.contains_here|]. split; [|split; reflexivity].
  do 3 apply PyStrFacts.contains_app_r.
  apply PyStrFacts.contains_app_l, CarryFacts.contains_refl.
Qed.

(** The repair after a candidate that returns [None], on attempt 1. *)
Lemma repair_step_witness :
  let o := Samples.returning PyNone in
  let w := mkWorld (Some "def parse(p): return None") 1 [] in
  exists w',
    attempts o Samples.fenced_model Samples.statement [1; 2; 3] w
    = attempts o Samples.fenced_model Samples.statement [2; 3] w' /\
    model_calls w' = 2.
Proof.
  cbv zeta.
  destruct (repair_step (Samples.returning PyNone) Samples.fenced_model Samples.statement
              1 [2; 3] (mkWorld (Some "def parse(p): return None") 1 [])
              (failure_feedback (Samples.returning PyNone) TypeError_None)
              "def parse(p): return None" eq_refl eq_refl)
    as (w' & H1 & _ & _ & _ & _ & H2).
  - unfold MAX_ATTEMPTS. lia.
  - exists w'. split; [exact H1 | exact H2].
Defined.

(** ** [analyze_data] *)

Module AnalysisFacts.


Lemma join_two (sep a b : string) (l : list string) :
  join sep (a :: b :: l) <> EmptyString \/ sep = EmptyString.
Proof.
  destruct sep as [|c sep]; [now right|]. left.
  cbn [join]. destruct (join (String c sep) (b :: l)); destruct a; discriminate.
Qed.

Lemma page_texts_length (pages : list Page) (texts : list string) :
  page_texts pages = Return texts -> length texts = length pages.
Proof.
  revert texts. induction pages as [|p pages IH]; intros texts H.
  - inversion H. reflexivity.
  - cbn [page_texts] in H. destruct p as [t|e]; cbn [bind] in H; [|discriminate].
    destruct (page_texts pages) as [ts|e]; cbn [bind] in H; [|discriminate].
    inversion H. cbn. now rewrite (IH ts eq_refl).
Qed.

End AnalysisFacts.



(** X12.  The text [analyze_data] extracts is empty, so that the prompt
    of the first generation says that no text was detected, only for a
    PDF that is read without fault and has no page, or one page without
    text.  From two pages on the text holds at least the newline that
    joins them, and the prompt quotes it instead. *)
Theorem no_text_placeholder (pdf : Pdf) (table_text pdf_text preview : string) :
  analyze_data pdf table_text = Return (pdf_text, preview) ->
  (prompt_pdf_text pdf_text = "[No extractable text detected.]" /\
   exists pages,
     pdf = Return pages /\ length pages <= 1 /\
     Forall (fun p => p = Return None \/ p = Return (Some EmptyString)) pages)
  \/
  (prompt_pdf_text pdf_text = pdf_text /\ pdf_text <> EmptyString).
Proof.
  intros H. unfold analyze_data in H.
  destruct (extract_pdf_text pdf) as [t|e] eqn:X; cbn [bind] in H; [|discriminate].
  inversion H. subst t preview. clear H.
  destruct (String.eqb_spec pdf_text EmptyString) as [E | N].
  2:{ right. split; [|exact N]. unfold prompt_pdf_text.
      destruct (String.eqb_spec pdf_text EmptyString); [contradiction | reflexivity]. }
  left. subst pdf_text. split; [reflexivity|].
  unfold extract_pdf_text, try_except_Exception in X.
  destruct pdf as [pages|e]; cbn [bind] in X.
  2:{ destruct (exn_is_Exception e); discriminate. }
  exists pages. split; [reflexivity|].
  destruct (page_texts (firstn 2 pages)) as [texts|e] eqn:P; cbn [bind] in X.
  2:{ destruct (exn_is_Exception e); discriminate. }
  inversion X as [J]. clear X.
  pose proof (AnalysisFacts.page_texts_length _ _ P) as L.
  destruct pages as [|p [|q pages]].
  - split; [cbn; lia | constructor].
  - split; [cbn; lia|]. cbn in P.
    destruct p as [[s|]|e]; cbn [bind] in P; try discriminate; inversion P; subst texts.
    + cbn in J. subst s. constructor; [now right | constructor].
    + constructor; [now left | constructor].
  - exfalso. cbn [firstn length] in L.
    destruct texts as [|a [|b l]]; try discriminate.
    destruct (AnalysisFacts.join_two PyStr.newline a b l); [contradiction | discriminate].
Qed.

(** A PDF of one page without text. *)
Lemma no_text_placeholder_witness :
  prompt_pdf_text EmptyString = "[No extractable text detected.]" \/
  (prompt_pdf_text EmptyString = EmptyString /\ EmptyString <> EmptyString).
Proof.
  destruct (no_text_placeholder (Return [Return None]) "Date" EmptyString
              (csv_preview_of "Date") eq_refl) as [[H _] | H].
  - left. exact H.
  - right. exact H.
Defined.

Example two_blank_pages_quote_a_newline :
  analyze_data (Return [Return None; Return (Some EmptyString); Raise Samples.SystemExit])
               "Date"
  = Return (PyStr.newline, csv_preview_of "Date").
Proof. reflexivity. Qed.

(** ** Which cells become empty *)


Example padded_null_kept :
  result_cell (CStr " None") = "None" /\ result_cell (CStr "None
") = EmptyString.
Proof. split; reflexivity. Qed.

(** ** Candidates and validations *)

Module CountFacts.


End CountFacts.



(** A run without the API key. *)
Lemma model_call_accounting_witness :
  parser_file
    (fst (main (Samples.raising Samples.RuntimeError) Samples.fenced_model
               (mkInputs "icici" true true None EmptyString EmptyString Samples.statement)
               (initial_world (Some "old parser"))))
  = Some "old parser".
Proof.
  apply (proj2 (proj2 (model_call_accounting
                         (Samples.raising Samples.RuntimeError) Samples.fenced_model
                         (mkInputs "icici" true true None EmptyString EmptyString
                                   Samples.statement)
                         (Some "old parser")))).
  reflexivity.
Defined.

(** ** The order of the checks of the comparison *)

Module VerdictFacts.




End VerdictFacts.


(** A frame with the values of the sample under the row labels 1 and 2,
    as a filter leaves them. *)
Example old_labels_rejected :
  assert_frame_equal
    (load_expected Samples.statement)
    (mkDF [1%Z; 2%Z] (data (load_expected Samples.statement)))
  = Different IndexDifferent.
Proof. reflexivity. Qed.

(** X16.  A parser file left by an earlier run is never validated: a run
    that gets as far as the loop overwrites it before the first
    validation, and goes on as if it had not been there. *)
Theorem stale_file_ignored (o : Interpreter) (model : Model) (i : Inputs)
    (file file' : option string) :
  ready i = true ->
  main o model i (initial_world file) = main o model i (initial_world file').
Proof.
  intros R. rewrite !(LoopFacts.main_ready _ _ _ _ R).
  now rewrite !LoopFacts.generate_parser_world.
Qed.

(** A run over an old parser that would pass, with a model whose
    candidates all fail. *)
Lemma stale_file_ignored_witness :
  main (Samples.raising Samples.RuntimeError) Samples.fenced_model Samples.inputs
       (initial_world (Some "old parser"))
  = main (Samples.raising Samples.RuntimeError) Samples.fenced_model Samples.inputs
         (initial_world None).
Proof.
  apply (stale_file_ignored (Samples.raising Samples.RuntimeError) Samples.fenced_model
                            Samples.inputs (Some "old parser") None).
  reflexivity.
Defined.
